(** * Image generation service: a shallow embedding of [src/client.py] and
    [src/search_service.py]

    The two Python modules are a transport client for an image provider and
    the service that validates a prompt, calls the client, parses the answer
    and downloads the image.  Pure helpers become Rocq functions; methods that
    talk to the provider, the network, the clock or the file system become
    computations of a small state-and-exception monad over an explicit world
    of oracles, with a heap for the [ImageResult] objects that the service
    mutates in place and a trace of the outside calls performed. *)

From Stdlib Require Import String Ascii NArith ZArith List Lia Bool.
From stdpp Require Import gmap strings list fin_maps.

Open Scope string_scope.
Open Scope Z_scope.

(** ** Python strings

    A [str] is modelled by [string]; a character is read as the code point
    with the same number, so the model covers the code points U+0000 to
    U+00FF.  The character tables below are the ones CPython uses for that
    range ([str.isspace], [str.lower], and the [re] module's Unicode classes
    [\s] and [\w]). *)

Module PyStr.

Definition code (c : ascii) : N := N_of_ascii c.

Definition between (lo hi : N) (c : ascii) : bool :=
  ((lo <=? code c) && (code c <=? hi))%N.

(** [str.isspace] on one character, which is also [\s]. *)
Definition isspace (c : ascii) : bool :=
  between 9 13 c || between 28 32 c || (code c =? 133)%N || (code c =? 160)%N.

(** Letters and numeric characters: what [\w] matches besides the
    underscore. *)
Definition isalnum (c : ascii) : bool :=
  between 48 57 c || between 65 90 c || between 97 122 c
  || (code c =? 170)%N || between 178 179 c || (code c =? 181)%N
  || between 185 186 c || between 188 190 c
  || between 192 214 c || between 216 246 c || between 248 255 c.

Definition lower_char (c : ascii) : ascii :=
  if between 65 90 c || between 192 214 c || between 216 222 c
  then ascii_of_N (code c + 32)
  else c.

(** [s.lower()] *)
Fixpoint lower (s : string) : string :=
  match s with
  | EmptyString => EmptyString
  | String c r => String (lower_char c) (lower r)
  end.

(** [bool(s)]: a string is truthy when it is not empty. *)
Definition truthy (s : string) : bool :=
  match s with EmptyString => false | String _ _ => true end.

(** Truthiness of an [Optional[str]]. *)
Definition truthy_opt (o : option string) : bool :=
  match o with None => false | Some s => truthy s end.

Fixpoint lstrip_by (p : ascii -> bool) (s : string) : string :=
  match s with
  | EmptyString => EmptyString
  | String c r => if p c then lstrip_by p r else s
  end.

Fixpoint rstrip_by (p : ascii -> bool) (s : string) : string :=
  match s with
  | EmptyString => EmptyString
  | String c r =>
      match rstrip_by p r with
      | EmptyString => if p c then EmptyString else String c EmptyString
      | r' => String c r'
      end
  end.

(** [s.strip()] *)
Definition strip (s : string) : string := rstrip_by isspace (lstrip_by isspace s).

(** [s.rstrip(ch)] for a one-character argument. *)
Definition rstrip_char (ch : ascii) (s : string) : string :=
  rstrip_by (Ascii.eqb ch) s.

(** [s.startswith(p)] *)
Fixpoint startswith (p s : string) : bool :=
  match p, s with
  | EmptyString, _ => true
  | String a p', String b s' => Ascii.eqb a b && startswith p' s'
  | String _ _, EmptyString => false
  end.

(** [sub in s] *)
Fixpoint contains (sub s : string) : bool :=
  startswith sub s ||
  match s with
  | EmptyString => false
  | String _ r => contains sub r
  end.

(** [s.endswith(ch)] for a one-character argument. *)
Fixpoint endswith_char (ch : ascii) (s : string) : bool :=
  match s with
  | EmptyString => false
  | String c EmptyString => Ascii.eqb c ch
  | String _ r => endswith_char ch r
  end.

(** [s[:n]] *)
Fixpoint take (n : nat) (s : string) : string :=
  match n, s with
  | S k, String c r => String c (take k r)
  | _, _ => EmptyString
  end.

(** [len(s)] *)
Definition len (s : string) : Z := Z.of_nat (String.length s).

(** Decimal digits of a non-negative number, padded with zeros to [w]
    places (the low [w] digits when it has more). *)
Definition digit (d : nat) : ascii := ascii_of_nat (48 + d mod 10).

Fixpoint zero_pad (w n : nat) : string :=
  match w with
  | O => EmptyString
  | S k => zero_pad k (n / 10) ++ String (digit n) EmptyString
  end.

End PyStr.

(** ** The [re.sub] calls of the file-name rule

    Both patterns are a single character class, once bare and once under
    [+].  The scanner walks the subject from left to right; under [+] a match
    greedily takes the whole run, so a class character starts a new match
    only when the character before it was not consumed by one. *)

Module Re.

(** [re.sub('[cls]', repl, s)] *)
Fixpoint sub_class (cls : ascii -> bool) (repl s : string) : string :=
  match s with
  | EmptyString => EmptyString
  | String c r =>
      if cls c then repl ++ sub_class cls repl r
      else String c (sub_class cls repl r)
  end.

(** [re.sub('[cls]+', repl, s)]; [in_match] says that the previous
    character belongs to the match in progress. *)
Fixpoint sub_class_plus_from (cls : ascii -> bool) (repl : string)
    (in_match : bool) (s : string) : string :=
  match s with
  | EmptyString => EmptyString
  | String c r =>
      if cls c then
        if in_match then sub_class_plus_from cls repl true r
        else repl ++ sub_class_plus_from cls repl true r
      else String c (sub_class_plus_from cls repl false r)
  end.

Definition sub_class_plus (cls : ascii -> bool) (repl s : string) : string :=
  sub_class_plus_from cls repl false s.

End Re.

(** ** Data model

    [src/models.py] is imported by both modules.  The records list the fields
    the two modules read or write; class defaults and [__str__] methods are
    declared in that module and are taken from the [World] below. *)

(** Raw bytes ([response.content], [ImageResult.image_data]). *)
Definition bytes : Type := list Byte.byte.

(** The Python values that occur in payloads and raw responses. *)
Inductive pyval : Type :=
| PNone
| PStr (s : string)
| PInt (z : Z).

(** A [dict] with string keys. *)
Abbreviation dict := (gmap string pyval).

Module ImageOptions.
Record t : Type := Make {
  model : string;
  size : string;
  quality : option string;
  style : option string;
  response_format : string;
  n : Z
}.

(** Keyword arguments of the constructor override the class defaults. *)
Definition with_model (v : string) (o : t) : t :=
  Make v (size o) (quality o) (style o) (response_format o) (n o).
Definition with_size (v : string) (o : t) : t :=
  Make (model o) v (quality o) (style o) (response_format o) (n o).
Definition with_quality (v : option string) (o : t) : t :=
  Make (model o) (size o) v (style o) (response_format o) (n o).
Definition with_style (v : option string) (o : t) : t :=
  Make (model o) (size o) (quality o) v (response_format o) (n o).
End ImageOptions.

Module ImageResult.
Record t : Type := Make {
  generation_id : string;
  image_url : option string;
  b64_json : option string;
  revised_prompt : option string;
  file_path : option string;
  image_data : option bytes;
  created_at : Z
}.

(** [result.image_data = v] *)
Definition set_image_data (v : bytes) (r : t) : t :=
  Make (generation_id r) (image_url r) (b64_json r) (revised_prompt r)
       (file_path r) (Some v) (created_at r).

(** [result.file_path = v] *)
Definition set_file_path (v : string) (r : t) : t :=
  Make (generation_id r) (image_url r) (b64_json r) (revised_prompt r)
       (Some v) (image_data r) (created_at r).

(** The url or the base64 payload is there. *)
Definition populated (r : t) : bool :=
  PyStr.truthy_opt (image_url r) || PyStr.truthy_opt (b64_json r).
End ImageResult.

Module ImageError.
Record t : Type := Make {
  code : string;
  message : string;
  details : gmap string string
}.
End ImageError.

(** ** Exceptions

    A class is its name and its base class, up to [Exception], so that an
    [except] clause can test [isinstance]. *)

Inductive exn_class : Type :=
| Exception
| Subclass (name : string) (base : exn_class).

Fixpoint class_eqb (c d : exn_class) : bool :=
  match c, d with
  | Exception, Exception => true
  | Subclass a b, Subclass a' b' => String.eqb a a' && class_eqb b b'
  | _, _ => false
  end.

(** [issubclass(c, d)] *)
Fixpoint issubclass (c d : exn_class) : bool :=
  class_eqb c d ||
  match c with
  | Exception => false
  | Subclass _ b => issubclass b d
  end.

Definition ValueError : exn_class := Subclass "ValueError" Exception.
Definition OSError : exn_class := Subclass "OSError" Exception.
(** [requests.RequestException] derives from [IOError], that is [OSError]. *)
Definition RequestException : exn_class := Subclass "RequestException" OSError.
Definition HTTPError : exn_class := Subclass "HTTPError" RequestException.
(** The provider SDK's classes, as [openai] declares them. *)
Definition OpenAIError : exn_class := Subclass "OpenAIError" Exception.
Definition APIError : exn_class := Subclass "APIError" OpenAIError.
Definition APIStatusError : exn_class := Subclass "APIStatusError" APIError.
Definition AuthenticationError : exn_class :=
  Subclass "AuthenticationError" APIStatusError.
Definition RateLimitError : exn_class := Subclass "RateLimitError" APIStatusError.
Definition ImageErrorClass : exn_class := Subclass "ImageError" Exception.

(** A raised exception: an [ImageError] with its fields, or an object of
    another class with the text [str(e)] gives. *)
Inductive exn : Type :=
| ImageErrorExn (e : ImageError.t)
| PyExn (cls : exn_class) (text : string).

Definition class_of (e : exn) : exn_class :=
  match e with
  | ImageErrorExn _ => ImageErrorClass
  | PyExn c _ => c
  end.

Definition isinstance (e : exn) (c : exn_class) : bool := issubclass (class_of e) c.

(** ** The outside world *)

Inductive outcome (A : Type) : Type :=
| Return (a : A)
| Raise (e : exn).
Arguments Return {A} a.
Arguments Raise {A} e.

(** The object [client.images.generate] answers with; [None] is an attribute
    the object does not have. *)
Record image_object : Type := {
  url : option pyval;
  b64_json : option pyval;
  revised_prompt : option pyval
}.

Record images_response : Type := {
  resp_created : option pyval;
  resp_data : list image_object
}.

(** The mapping [_response_to_dict] builds: the keys [created] and [data]. *)
Record raw_response : Type := {
  created : pyval;
  data : list dict
}.

(** A [requests.Response]: the status, the body, and the text of the
    [HTTPError] that [raise_for_status] raises for this response. *)
Record http_response : Type := {
  status_code : Z;
  content : bytes;
  http_error_text : string
}.

Record datetime : Type := {
  year : nat; month : nat; day : nat;
  hour : nat; minute : nat; second : nat
}.

(** The calls that leave the process, in the order they are made. *)
Inductive event : Type :=
| ImagesGenerate (payload : dict)
| HttpGet (url : string) (timeout : Z)
| Makedirs (path : string)
| WriteFile (path : string) (data : bytes).

(** Everything the two modules import or call and do not define.  Each
    oracle sees the calls made so far, so an answer may depend on the
    history. *)
Record World : Type := {
(** [ImageOptions()], the class defaults of [src/models.py] *)
ImageOptions_defaults : ImageOptions.t;
(** [str(result)] and [str(e)] for the classes of [src/models.py] *)
ImageResult_str : ImageResult.t -> string;
ImageError_str : ImageError.t -> string;
(** [ImageResponseParser.parse(raw_response, prompt)] of [src/parser.py] *)
parser_parse : list event -> raw_response -> string -> outcome ImageResult.t;
(** [client.images.generate], called with the payload as keyword arguments *)
images_generate : list event -> dict -> outcome images_response;
(** [requests.get(url, timeout=t)] *)
requests_get : list event -> string -> Z -> outcome http_response;
(** [os.makedirs(path, exist_ok=True)] *)
os_makedirs : list event -> string -> outcome unit;
(** [with open(path, 'wb') as f: f.write(data)] *)
write_file : list event -> string -> bytes -> outcome unit;
(** [datetime.now()] *)
datetime_now : list event -> datetime
}.

(** ** Computations

    A method runs over a heap of [ImageResult] objects and the trace of
    outside calls, and either returns or raises. *)

Record State : Type := {
  heap : gmap nat ImageResult.t;
  trace : list event
}.

Definition M (A : Type) : Type := State -> outcome A * State.

Definition raise {A} (e : exn) : M A := fun st => (Raise e, st).

#[global] Instance M_ret : MRet M := fun A (a : A) st => (Return a, st).

#[global] Instance M_bind : MBind M := fun A B (k : A -> M B) (m : M A) st =>
  match m st with
  | (Return a, st') => k a st'
  | (Raise e, st') => (Raise e, st')
  end.

(** [try: body except C1 as e: h1 e except C2 as e: h2 e ...]: the first
    clause whose class the exception is an instance of handles it. *)
Fixpoint select_handler {A} (e : exn) (hs : list (exn_class * (exn -> M A)))
    : option (exn -> M A) :=
  match hs with
  | [] => None
  | (c, h) :: rest => if isinstance e c then Some h else select_handler e rest
  end.

Definition try_except {A} (body : M A) (hs : list (exn_class * (exn -> M A))) : M A :=
  fun st =>
    match body st with
    | (Return a, st') => (Return a, st')
    | (Raise e, st') =>
        match select_handler e hs with
        | Some h => h e st'
        | None => (Raise e, st')
        end
    end.

(** Turn an oracle's answer into a computation. *)
Definition lift {A} (o : outcome A) : M A := fun st => (o, st).

(** Make an outside call: ask the oracle with the history so far, then
    record the call. *)
Definition call {A} (ev : event) (oracle : list event -> outcome A) : M A :=
  fun st => (oracle (trace st), {| heap := heap st; trace := trace st ++ [ev] |}).

(** A new object on the heap. *)
Definition alloc (r : ImageResult.t) : M nat :=
  fun st =>
    let l := fresh (dom (heap st)) in
    (Return l, {| heap := <[l := r]> (heap st); trace := trace st |}).

(** Reading a field of an object; a dangling reference raises. *)
Definition read (l : nat) : M ImageResult.t :=
  fun st =>
    match heap st !! l with
    | Some r => (Return r, st)
    | None => (Raise (PyExn (Subclass "ReferenceError" Exception) "no such object"), st)
    end.

(** Assignment to a field of an object. *)
Definition update (l : nat) (f : ImageResult.t -> ImageResult.t) : M unit :=
  fun st =>
    match heap st !! l with
    | Some r => (Return tt, {| heap := <[l := f r]> (heap st); trace := trace st |})
    | None => (Raise (PyExn (Subclass "ReferenceError" Exception) "no such object"), st)
    end.

(** [str(e)] *)
Definition exn_str (W : World) (e : exn) : string :=
  match e with
  | ImageErrorExn ie => ImageError_str W ie
  | PyExn _ text => text
  end.

(** [response.raise_for_status()]: statuses 400 to 599 raise [HTTPError]. *)
Definition error_status (s : Z) : bool := (400 <=? s) && (s <? 600).

Definition raise_for_status (r : http_response) : outcome unit :=
  if error_status (status_code r)
  then Raise (PyExn HTTPError (http_error_text r))
  else Return tt.

(** ** [os.path] (the POSIX flavour) *)

Module OsPath.

Definition is_sep (c : ascii) : bool := Ascii.eqb c "/".

Fixpoint has_sep (s : string) : bool :=
  match s with
  | EmptyString => false
  | String c r => is_sep c || has_sep r
  end.

Fixpoint all_sep (s : string) : bool :=
  match s with
  | EmptyString => true
  | String c r => is_sep c && all_sep r
  end.

(** [os.path.join(a, b)] *)
Definition join (a b : string) : string :=
  if PyStr.startswith "/" b then b
  else if negb (PyStr.truthy a) || PyStr.endswith_char "/" a then a ++ b
  else a ++ "/" ++ b.

(** [p[:p.rfind('/') + 1]] *)
Fixpoint head (p : string) : string :=
  match p with
  | EmptyString => EmptyString
  | String c r => if has_sep p then String c (head r) else EmptyString
  end.

(** [os.path.dirname(p)] *)
Definition dirname (p : string) : string :=
  let h := head p in
  if PyStr.truthy h && negb (all_sep h) then PyStr.rstrip_char "/" h else h.

End OsPath.

(** ** [src/client.py]: class [ImageGenerationClient] *)

Module ImageGenerationClient.
Section Methods.

Context (W : World).

(** [validate_api_key]; the key is the object's [api_key] attribute. *)
Definition validate_api_key (api_key : string) : bool :=
  PyStr.startswith "sk-" api_key && (20 <? PyStr.len api_key).

Definition _construct_payload (prompt : string) (options : ImageOptions.t) : dict :=
  let payload : dict :=
    <["n" := PInt (ImageOptions.n options)]>
    (<["response_format" := PStr (ImageOptions.response_format options)]>
    (<["size" := PStr (ImageOptions.size options)]>
    (<["prompt" := PStr prompt]>
    (<["model" := PStr (ImageOptions.model options)]> ∅)))) in
  let payload :=
    if String.eqb (ImageOptions.model options) "dall-e-3"
       && PyStr.truthy_opt (ImageOptions.quality options)
    then <["quality" := PStr (default "" (ImageOptions.quality options))]> payload
    else payload in
  let payload :=
    if String.eqb (ImageOptions.model options) "dall-e-3"
       && PyStr.truthy_opt (ImageOptions.style options)
    then <["style" := PStr (default "" (ImageOptions.style options))]> payload
    else payload in
  payload.

(** One entry of [result["data"]]: only the attributes the object has. *)
Definition image_to_dict (image : image_object) : dict :=
  let image_dict : dict := ∅ in
  let image_dict :=
    match url image with Some v => <["url" := v]> image_dict | None => image_dict end in
  let image_dict :=
    match b64_json image with
    | Some v => <["b64_json" := v]> image_dict | None => image_dict end in
  let image_dict :=
    match revised_prompt image with
    | Some v => <["revised_prompt" := v]> image_dict | None => image_dict end in
  image_dict.

Definition _response_to_dict (response : images_response) : raw_response :=
  {| created := default (PInt 0) (resp_created response);
     data := map image_to_dict (resp_data response) |}.

Definition original_error (e : exn) : gmap string string :=
  {[ "original_error" := exn_str W e ]}.

Definition generate_image (prompt : string) (options : option ImageOptions.t)
    : M raw_response :=
  if negb (PyStr.truthy prompt) || negb (PyStr.truthy (PyStr.strip prompt)) then
    raise (PyExn ValueError "Prompt cannot be empty")
  else if 4000 <? PyStr.len prompt then
    raise (PyExn ValueError "Prompt too long (max 4000 characters)")
  else
    let options := default (ImageOptions_defaults W) options in
    let payload := _construct_payload prompt options in
    try_except
      (response ← call (ImagesGenerate payload) (fun h => images_generate W h payload);
       mret (_response_to_dict response))
      [ (AuthenticationError, fun e =>
           raise (ImageErrorExn
             (ImageError.Make "AUTHENTICATION_ERROR"
                "Invalid API key or authentication failed"
                (original_error e))));
        (RateLimitError, fun e =>
           raise (ImageErrorExn
             (ImageError.Make "RATE_LIMIT_ERROR"
                "API rate limit exceeded"
                (original_error e))));
        (APIError, fun e =>
           let error_msg := PyStr.lower (exn_str W e) in
           if PyStr.contains "content policy" error_msg
              || PyStr.contains "safety" error_msg
           then
             raise (ImageErrorExn
               (ImageError.Make "CONTENT_POLICY_ERROR"
                  "Prompt violates OpenAI's content policy"
                  (original_error e)))
           else
             raise (ImageErrorExn
               (ImageError.Make "API_ERROR"
                  ("API request failed: " ++ exn_str W e)
                  (original_error e))));
        (Exception, fun e =>
           raise (ImageErrorExn
             (ImageError.Make "UNKNOWN_ERROR"
                ("Unexpected error: " ++ exn_str W e)
                (original_error e)))) ].

End Methods.
End ImageGenerationClient.

(** ** [src/search_service.py]: class [ImageGenerationService] *)

Module ImageGenerationService.
Section Methods.

Context (W : World).

Definition problematic_terms : list string := ["violence"; "gore"; "explicit"].

Definition validate_prompt (prompt : string) : bool :=
  if negb (PyStr.truthy prompt) then false
  else if negb (PyStr.truthy (PyStr.strip prompt)) then false
  else if 4000 <? PyStr.len prompt then false
  else
    let prompt_lower := PyStr.lower prompt in
    if existsb (fun term => PyStr.contains term prompt_lower) problematic_terms
    then false
    else true.

Definition create_options_for_quality (quality : string) : outcome ImageOptions.t :=
  if String.eqb quality "standard" then
    Return (ImageOptions.with_style (Some "natural")
             (ImageOptions.with_quality (Some "standard")
               (ImageOptions.with_size "1024x1024"
                 (ImageOptions.with_model "dall-e-3" (ImageOptions_defaults W)))))
  else if String.eqb quality "high" then
    Return (ImageOptions.with_style (Some "vivid")
             (ImageOptions.with_quality (Some "hd")
               (ImageOptions.with_size "1024x1024"
                 (ImageOptions.with_model "dall-e-3" (ImageOptions_defaults W)))))
  else if String.eqb quality "fast" then
    Return (ImageOptions.with_size "512x512"
             (ImageOptions.with_model "dall-e-2" (ImageOptions_defaults W)))
  else
    Raise (PyExn ValueError
             ("Unknown quality level: " ++ quality
              ++ ". Use 'standard', 'high', or 'fast'")).

(** The class [[^\w\s-]] of the first substitution. *)
Definition not_word_space_hyphen (c : ascii) : bool :=
  negb (PyStr.isalnum c || Ascii.eqb c "_" || PyStr.isspace c || Ascii.eqb c "-").

(** The class [[-\s]] of the second substitution. *)
Definition hyphen_or_space (c : ascii) : bool :=
  Ascii.eqb c "-" || PyStr.isspace c.

Definition clean_prompt (prompt : string) : string :=
  let clean_prompt := Re.sub_class not_word_space_hyphen "" (PyStr.lower prompt) in
  let clean_prompt := Re.sub_class_plus hyphen_or_space "_" clean_prompt in
  if 50 <? PyStr.len clean_prompt
  then PyStr.rstrip_char "_" (PyStr.take 50 clean_prompt)
  else clean_prompt.

(** [t.strftime("%Y%m%d_%H%M%S")], the year on four digits. *)
Definition strftime_Ymd_HMS (t : datetime) : string :=
  PyStr.zero_pad 4 (year t) ++ PyStr.zero_pad 2 (month t) ++ PyStr.zero_pad 2 (day t)
  ++ "_"
  ++ PyStr.zero_pad 2 (hour t) ++ PyStr.zero_pad 2 (minute t) ++ PyStr.zero_pad 2 (second t).

(** The file name, given what [datetime.now()] answered. *)
Definition safe_filename_at (now : datetime) (prompt generation_id : string) : string :=
  let timestamp := strftime_Ymd_HMS now in
  clean_prompt prompt ++ "_" ++ timestamp ++ "_" ++ generation_id ++ ".png".

Definition _generate_safe_filename (prompt generation_id : string) : M string :=
  fun st =>
    (Return (safe_filename_at (datetime_now W (trace st)) prompt generation_id), st).

(** [result] is the reference to the object; the same reference is
    returned. *)
Definition download_and_save_image (result : nat) (save_path : string) : M nat :=
  r ← read result;
  if negb (PyStr.truthy_opt (ImageResult.image_url r)) then
    raise (ImageErrorExn
      (ImageError.Make "DOWNLOAD_ERROR"
         "No image URL available for download"
         {[ "result" := ImageResult_str W r ]}))
  else
    try_except
      (r ← read result;
       let image_url := default "" (ImageResult.image_url r) in
       response ← call (HttpGet image_url 30) (fun h => requests_get W h image_url 30);
       lift (raise_for_status response);;
       update result (ImageResult.set_image_data (content response));;
       call (Makedirs (OsPath.dirname save_path))
            (fun h => os_makedirs W h (OsPath.dirname save_path));;
       r ← read result;
       let image_data := default [] (ImageResult.image_data r) in
       call (WriteFile save_path image_data)
            (fun h => write_file W h save_path image_data);;
       update result (ImageResult.set_file_path save_path);;
       mret result)
      [ (RequestException, fun e =>
           r ← read result;
           raise (ImageErrorExn
             (ImageError.Make "DOWNLOAD_ERROR"
                ("Failed to download image: " ++ exn_str W e)
                (<["url" := default "" (ImageResult.image_url r)]>
                   {[ "error" := exn_str W e ]}))));
        (OSError, fun e =>
           raise (ImageErrorExn
             (ImageError.Make "SAVE_ERROR"
                ("Failed to save image: " ++ exn_str W e)
                (<["save_path" := save_path]> {[ "error" := exn_str W e ]})))) ].

(** The body of the [try] statement of [generate_image]. *)
Definition generate_image_body (prompt : string) (options : ImageOptions.t)
    (auto_save : bool) (save_dir : string) : M nat :=
  raw_response ← ImageGenerationClient.generate_image W prompt (Some options);
  parsed ← (fun st => (parser_parse W (trace st) raw_response prompt, st));
  result ← alloc parsed;
  r ← read result;
  if auto_save && PyStr.truthy_opt (ImageResult.image_url r) then
    safe_filename ← _generate_safe_filename prompt (ImageResult.generation_id r);
    let save_path := OsPath.join save_dir safe_filename in
    download_and_save_image result save_path
  else
    mret result.

Definition generate_image (prompt : string) (options : option ImageOptions.t)
    (auto_save : bool) (save_dir : string) : M nat :=
  if negb (validate_prompt prompt) then
    raise (PyExn ValueError
             "Invalid prompt: must be non-empty and under 4000 characters")
  else
    let options := default (ImageOptions_defaults W) options in
    try_except
      (generate_image_body prompt options auto_save save_dir)
      [ (ImageErrorClass, fun e => raise e);
        (Exception, fun e =>
           raise (ImageErrorExn
             (ImageError.Make "GENERATION_FAILED"
                ("Image generation failed: " ++ exn_str W e)
                {[ "original_error" := exn_str W e ]}))) ].

(** The defaults of [generate_image]'s keyword parameters. *)
Definition default_auto_save : bool := true.
Definition default_save_dir : string := "generated_images".

Definition generate_and_save (prompt save_path : string)
    (options : option ImageOptions.t) : M nat :=
  result ← generate_image prompt options default_auto_save default_save_dir;
  download_and_save_image result save_path.

End Methods.
End ImageGenerationService.

(** ** The specification's wording, as definitions

    These follow the sentences of the specification, not the code; the
    theorems below compare them with the embedding. *)

Module Stated.

(** [sub] occurs in [s]. *)
Definition substring (sub s : string) : Prop :=
  exists pre suf, s = pre ++ sub ++ suf.

(** [sub] occurs in [s], letter case ignored. *)
Definition substring_nocase (sub s : string) : Prop :=
  substring (PyStr.lower sub) (PyStr.lower s).

(** Empty, or nothing but whitespace. *)
Definition blank (s : string) : Prop :=
  Forall (fun c => PyStr.isspace c = true) (list_ascii_of_string s).

(** The prompts the validation rule turns down: blank, longer than 4000
    characters, or containing a denylisted term in any letter case. *)
Definition invalid_prompt (prompt : string) : Prop :=
  blank prompt
  \/ 4000 < Z.of_nat (String.length prompt)
  \/ exists term,
       In term ImageGenerationService.problematic_terms
       /\ substring_nocase term prompt.

(** Maximal runs of characters that agree on [p], each with its flag. *)
Fixpoint runs (p : ascii -> bool) (l : list ascii) : list (bool * list ascii) :=
  match l with
  | [] => []
  | c :: r =>
      match runs p r with
      | (b, g) :: rest =>
          if Bool.eqb b (p c) then (b, c :: g) :: rest
          else (p c, [c]) :: (b, g) :: rest
      | [] => [(p c, [c])]
      end
  end.

(** Every run of [p]-characters becomes one underscore. *)
Definition collapse_runs (p : ascii -> bool) (l : list ascii) : list ascii :=
  concat (map (fun bg : bool * list ascii => if fst bg then ["_"%char] else snd bg)
              (runs p l)).

Definition is_underscore (c : ascii) : bool := Ascii.eqb c "_".

Fixpoint drop_while (p : ascii -> bool) (l : list ascii) : list ascii :=
  match l with
  | [] => []
  | c :: r => if p c then drop_while p r else l
  end.

(** Cut to [k] characters; a text that had to be cut loses the underscores
    the cut leaves at its end. *)
Definition truncate_trim (k : nat) (l : list ascii) : list ascii :=
  if (List.length l <=? k)%nat then l
  else rev (drop_while is_underscore (rev (firstn k l))).

Definition hyphen_or_space (c : ascii) : bool :=
  PyStr.isspace c || Ascii.eqb c "-".

(** The characters the rule keeps, in the specification's words:
    alphanumeric, whitespace or hyphen. *)
Definition kept_as_stated (c : ascii) : bool :=
  PyStr.isalnum c || PyStr.isspace c || Ascii.eqb c "-".

(** The same with the underscore kept as well. *)
Definition kept_with_underscore (c : ascii) : bool :=
  PyStr.isalnum c || Ascii.eqb c "_" || PyStr.isspace c || Ascii.eqb c "-".

(** The file-name rule: lowercase, strip, collapse, truncate, then append
    the timestamp and the generation id. *)
Definition filename_rule (kept : ascii -> bool) (now : datetime)
    (prompt generation_id : string) : string :=
  let l := map PyStr.lower_char (list_ascii_of_string prompt) in
  let l := List.filter kept l in
  let l := collapse_runs hyphen_or_space l in
  let l := truncate_trim 50 l in
  string_of_list_ascii l
  ++ "_" ++ ImageGenerationService.strftime_Ymd_HMS now
  ++ "_" ++ generation_id ++ ".png".

(** The error code the client's table gives a provider failure, in the
    order the table lists its rows. *)
Inductive error_code (text : string) (e : exn) : string -> Prop :=
| code_authentication :
    isinstance e AuthenticationError = true ->
    error_code text e "AUTHENTICATION_ERROR"
| code_rate_limit :
    isinstance e AuthenticationError = false ->
    isinstance e RateLimitError = true ->
    error_code text e "RATE_LIMIT_ERROR"
| code_content_policy :
    isinstance e AuthenticationError = false ->
    isinstance e RateLimitError = false ->
    isinstance e APIError = true ->
    substring_nocase "content policy" text \/ substring_nocase "safety" text ->
    error_code text e "CONTENT_POLICY_ERROR"
| code_api :
    isinstance e AuthenticationError = false ->
    isinstance e RateLimitError = false ->
    isinstance e APIError = true ->
    ~ (substring_nocase "content policy" text \/ substring_nocase "safety" text) ->
    error_code text e "API_ERROR"
| code_unknown :
    isinstance e AuthenticationError = false ->
    isinstance e RateLimitError = false ->
    isinstance e APIError = false ->
    error_code text e "UNKNOWN_ERROR".

End Stated.

(** ** Construction of the client and of the service

    The two [__init__] methods.  The environment is the lookup
    [os.getenv]; the provider SDK's client object and the response parser
    are built without a check of these modules and are not looked into. *)

Record client_object : Type := { api_key : string }.

Record service_object : Type := { client : client_object }.

(** [ImageGenerationClient.__init__(api_key)] *)
Definition ImageGenerationClient_init (getenv : string -> option string)
    (api_key : option string) : outcome client_object :=
  let key := if PyStr.truthy_opt api_key then api_key else getenv "OPENAI_API_KEY" in
  if negb (PyStr.truthy_opt key) then
    Raise (PyExn ValueError
             "API key must be provided or set in OPENAI_API_KEY environment variable")
  else Return {| api_key := default "" key |}.

(** [ImageGenerationService.__init__(api_key)] *)
Definition ImageGenerationService_init (getenv : string -> option string)
    (api_key : option string) : outcome service_object :=
  if negb (PyStr.truthy_opt api_key) then
    Raise (PyExn ValueError "API key is required")
  else
    match ImageGenerationClient_init getenv api_key with
    | Return c => Return {| client := c |}
    | Raise e => Raise e
    end.

(** ** Kinds of outside calls *)

Inductive call_kind : Type :=
| Request
| Download
| CreateDirectory
| Write.

Definition kind_of (ev : event) : call_kind :=
  match ev with
  | ImagesGenerate _ => Request
  | HttpGet _ _ => Download
  | Makedirs _ => CreateDirectory
  | WriteFile _ _ => Write
  end.

(** A success status as the specification words it: one of the 2xx. *)
Definition success_status (s : Z) : bool := (200 <=? s) && (s <? 300).

(** A character of [\w]. *)
Definition word_char (c : ascii) : bool := PyStr.isalnum c || Ascii.eqb c "_".

(** Two results that differ at most in [image_data] and [file_path]. *)
Definition same_generation (r r' : ImageResult.t) : Prop :=
  ImageResult.generation_id r' = ImageResult.generation_id r
  /\ ImageResult.image_url r' = ImageResult.image_url r
  /\ ImageResult.b64_json r' = ImageResult.b64_json r
  /\ ImageResult.revised_prompt r' = ImageResult.revised_prompt r
  /\ ImageResult.created_at r' = ImageResult.created_at r.

(** Every character of the string satisfies [P]. *)
Definition all_chars (P : ascii -> bool) (s : string) : Prop :=
  Forall (fun c => P c = true) (list_ascii_of_string s).

(** The keys [_construct_payload] may set. *)
Definition payload_keys : list string :=
  ["model"; "prompt"; "size"; "response_format"; "n"; "quality"; "style"].

(** ** What the handlers of [download_and_save_image] raise

    The two [except] clauses of the method, as a function of the exception
    that reached them: a [RequestException] becomes [DOWNLOAD_ERROR], any
    other [OSError] becomes [SAVE_ERROR], and anything else passes. *)

Definition download_failure (W : World) (image_url save_path : string) (e : exn) : exn :=
  if isinstance e RequestException then
    ImageErrorExn
      (ImageError.Make "DOWNLOAD_ERROR"
         ("Failed to download image: " ++ exn_str W e)
         (<["url" := image_url]> {[ "error" := exn_str W e ]}))
  else if isinstance e OSError then
    ImageErrorExn
      (ImageError.Make "SAVE_ERROR"
         ("Failed to save image: " ++ exn_str W e)
         (<["save_path" := save_path]> {[ "error" := exn_str W e ]}))
  else e.

(** ** Runs of a character class *)

(** Does the text start with a character of the class? *)
Definition starts_in_class (q : ascii -> bool) (l : list ascii) : bool :=
  match l with
  | [] => false
  | c :: _ => q c
  end.

(** ** Proof automation *)

(** Unfold one layer of the monad and of the heap and oracle primitives. *)
Ltac run :=
  unfold mbind, M_bind, mret, M_ret, try_except, call, lift, read, update, raise;
  cbn [heap trace fst snd].

(** ** Sample worlds

    Concrete collaborators on which the theorems below are exercised: a
    provider that answers with one image url, a parser that copies the url of
    the first entry, and a download endpoint, a file system and a clock with
    fixed answers. *)

Module Sample.

Definition defaults : ImageOptions.t :=
  ImageOptions.Make "dall-e-3" "1024x1024" (Some "standard") (Some "vivid") "url" 1.

Definition image_url : string := "https://img.example/1.png".

Definition one_image : images_response :=
  {| resp_created := Some (PInt 1735732800);
     resp_data := [ {| url := Some (PStr image_url);
                       b64_json := None;
                       revised_prompt := None |} ] |}.

Definition first_url (raw : raw_response) : option string :=
  match data raw with
  | d :: _ => match d !! "url" with Some (PStr u) => Some u | _ => None end
  | [] => None
  end.

Definition parsed (raw : raw_response) : ImageResult.t :=
  ImageResult.Make "gen-1" (first_url raw) None None None None 0.

Definition png : bytes := [Byte.x89; Byte.x50; Byte.x4e; Byte.x47].

Definition ok_response : http_response :=
  {| status_code := 200; content := png; http_error_text := "" |}.

Definition not_found : http_response :=
  {| status_code := 404; content := [];
     http_error_text := "404 Client Error: Not Found for url: https://img.example/1.png" |}.

Definition noon : datetime :=
  {| year := 2025; month := 1; day := 1; hour := 12; minute := 0; second := 0 |}.

(** A world from the answers of the provider, the parser, the download
    endpoint, [os.makedirs] and the file write. *)
Definition world (generate : outcome images_response)
    (parse : raw_response -> outcome ImageResult.t)
    (get : outcome http_response) (mkdirs write : outcome unit) : World :=
  {| ImageOptions_defaults := defaults;
     ImageResult_str := fun r => "ImageResult(" ++ ImageResult.generation_id r ++ ")";
     ImageError_str := ImageError.message;
     parser_parse := fun _ raw _ => parse raw;
     images_generate := fun _ _ => generate;
     requests_get := fun _ _ _ => get;
     os_makedirs := fun _ _ => mkdirs;
     write_file := fun _ _ _ => write;
     datetime_now := fun _ => noon |}.

(** Everything succeeds. *)
Definition fine : World :=
  world (Return one_image) (fun raw => Return (parsed raw))
        (Return ok_response) (Return tt) (Return tt).

(** The provider turns the key down. *)
Definition bad_key : World :=
  world (Raise (PyExn AuthenticationError "Incorrect API key provided"))
        (fun raw => Return (parsed raw))
        (Return ok_response) (Return tt) (Return tt).

(** The parser fails on the answer. *)
Definition bad_parse : World :=
  world (Return one_image) (fun _ => Raise (PyExn (Subclass "KeyError" Exception) "'data'"))
        (Return ok_response) (Return tt) (Return tt).

(** The parser hands back a result with neither url nor base64 payload. *)
Definition hollow_parse : World :=
  world (Return one_image)
        (fun _ => Return (ImageResult.Make "gen-0" None None None None None 0))
        (Return ok_response) (Return tt) (Return tt).

(** The disk is full when the file is written. *)
Definition disk_full : World :=
  world (Return one_image) (fun raw => Return (parsed raw))
        (Return ok_response) (Return tt)
        (Raise (PyExn OSError "[Errno 28] No space left on device")).

(** The image is gone from the download endpoint. *)
Definition broken_link : World :=
  world (Return one_image) (fun raw => Return (parsed raw))
        (Return not_found) (Return tt) (Return tt).

Definition empty_state : State := {| heap := ∅; trace := [] |}.

(** A heap with one generated, not yet downloaded, result at address 0. *)
Definition generated : ImageResult.t :=
  ImageResult.Make "gen-1" (Some image_url) None None None None 0.

Definition one_result : State := {| heap := {[ 0%nat := generated ]}; trace := [] |}.

(** The result after a download to [out/cat.png]. *)
Definition saved : ImageResult.t :=
  ImageResult.Make "gen-1" (Some image_url) None None (Some "out/cat.png") (Some png) 0.

(** The parser answers with the generated result, whatever it is given. *)
Definition steady_parse : World :=
  world (Return one_image) (fun _ => Return generated)
        (Return ok_response) (Return tt) (Return tt).

(** The GET request fails before any connection, with a plain [OSError]. *)
Definition no_ca_bundle : World :=
  world (Return one_image) (fun raw => Return (parsed raw))
        (Raise (PyExn OSError "Could not find a suitable TLS CA certificate bundle"))
        (Return tt) (Return tt).

(** [os.makedirs] turns the directory down, as it does for the empty path. *)
Definition no_directory : World :=
  world (Return one_image) (fun raw => Return (parsed raw))
        (Return ok_response)
        (Raise (PyExn (Subclass "FileNotFoundError" OSError)
                  "[Errno 2] No such file or directory: ''"))
        (Return tt).

(** The provider answers with base64 data, and the parsed result has no url. *)
Definition base64_image : World :=
  world (Return {| resp_created := Some (PInt 1735732800);
                   resp_data := [ {| url := Some PNone;
                                     b64_json := Some (PStr "iVBORw0KGgo=");
                                     revised_prompt := None |} ] |})
        (fun _ => Return (ImageResult.Make "gen-2" None (Some "iVBORw0KGgo=")
                            None None None 0))
        (Return ok_response) (Return tt) (Return tt).

(** The download endpoint answers 304 Not Modified, with an empty body. *)
Definition not_modified_response : http_response :=
  {| status_code := 304; content := []; http_error_text := "" |}.

Definition not_modified : World :=
  world (Return one_image) (fun raw => Return (parsed raw))
        (Return not_modified_response) (Return tt) (Return tt).

(** The parser fails with a [ValueError]. *)
Definition parser_value_error : World :=
  world (Return one_image) (fun _ => Raise (PyExn ValueError "no image in response"))
        (Return ok_response) (Return tt) (Return tt).

(** The calls of a trace other than the generation request. *)
Definition downloads (t : list event) : list event :=
  List.filter (fun e => match e with ImagesGenerate _ => false | _ => true end) t.

End Sample.

(** * Properties *)

(** ** Strings *)

Section StringFacts.

Lemma startswith_spec (p s : string) :
  PyStr.startswith p s = true <-> exists suf, s = p ++ suf.
Proof.
  revert s; induction p as [|a p IH]; intros s.
  - destruct s; simpl; split; eauto.
  - destruct s as [|b s]; simpl.
    + split; [discriminate | intros [suf H]; discriminate].
    + rewrite andb_true_iff, Ascii.eqb_eq, IH. split.
      * intros [-> [suf ->]]. now exists suf.
      * intros [suf H]. injection H as -> ->. eauto.
Qed.

Lemma contains_spec (sub s : string) :
  PyStr.contains sub s = true <-> Stated.substring sub s.
Proof.
  unfold Stated.substring. induction s as [|a s IH].
  - cbn [PyStr.contains]. rewrite orb_false_r, startswith_spec. split.
    + intros [suf H]. exists "", suf. exact H.
    + intros [pre [suf H]].
      destruct pre; simpl in H; [exists suf; exact H | discriminate H].
  - cbn [PyStr.contains]. rewrite orb_true_iff, startswith_spec, IH. split.
    + intros [[suf H] | [pre [suf H]]].
      * exists "", suf. exact H.
      * exists (String a pre), suf. rewrite H. reflexivity.
    + intros [pre [suf H]]. destruct pre as [|b pre]; simpl in H.
      * left. exists suf. exact H.
      * right. injection H as -> H. exists pre, suf. exact H.
Qed.

Lemma lstrip_empty (p : ascii -> bool) (s : string) :
  PyStr.lstrip_by p s = "" <->
  Forall (fun c => p c = true) (list_ascii_of_string s).
Proof.
  induction s as [|c s IH]; simpl.
  - split; [constructor | reflexivity].
  - destruct (p c) eqn:Hc.
    + rewrite IH. split.
      * intros H. now constructor.
      * intros H. now inversion H.
    + split; [discriminate |].
      intros H. inversion H; congruence.
Qed.

Lemma lstrip_head (p : ascii -> bool) (s : string) (c : ascii) (r : string) :
  PyStr.lstrip_by p s = String c r -> p c = false.
Proof.
  induction s as [|a s IH]; simpl; [discriminate |].
  destruct (p a) eqn:Ha; [exact IH |].
  intros H. injection H as -> _. exact Ha.
Qed.

Lemma rstrip_keeps (p : ascii -> bool) (c : ascii) (r : string) :
  p c = false -> PyStr.rstrip_by p (String c r) <> "".
Proof.
  intros Hc. simpl. destruct (PyStr.rstrip_by p r); [rewrite Hc |]; discriminate.
Qed.

Lemma strip_blank (s : string) :
  PyStr.truthy (PyStr.strip s) = false <-> Stated.blank s.
Proof.
  unfold Stated.blank, PyStr.strip. rewrite <- lstrip_empty.
  destruct (PyStr.lstrip_by PyStr.isspace s) as [|c r] eqn:Hl.
  - simpl. tauto.
  - apply lstrip_head in Hl. apply (rstrip_keeps _ _ r) in Hl.
    destruct (PyStr.rstrip_by PyStr.isspace (String c r)); [congruence |].
    simpl. split; discriminate.
Qed.

Lemma truthy_blank (s : string) : PyStr.truthy s = false -> Stated.blank s.
Proof. destruct s; [constructor | discriminate]. Qed.

Lemma problematic_terms_lower (term : string) :
  In term ImageGenerationService.problematic_terms -> PyStr.lower term = term.
Proof.
  simpl. intros [<- | [<- | [<- | []]]]; reflexivity.
Qed.

End StringFacts.

(** ** Prompt validation *)

Lemma validate_prompt_false_iff (prompt : string) :
  ImageGenerationService.validate_prompt prompt = false <-> Stated.invalid_prompt prompt.
Proof.
  unfold ImageGenerationService.validate_prompt, Stated.invalid_prompt.
  set (hit := fun term => PyStr.contains term (PyStr.lower prompt)).
  destruct (PyStr.truthy prompt) eqn:Ht; cbn [negb].
  2:{ split; [intros _ | reflexivity]. left. now apply truthy_blank. }
  destruct (PyStr.truthy (PyStr.strip prompt)) eqn:Hs; cbn [negb].
  2:{ split; [intros _ | reflexivity]. left. now apply strip_blank. }
  assert (Hnb : ~ Stated.blank prompt).
  { intros Hb. apply strip_blank in Hb. congruence. }
  unfold PyStr.len.
  destruct (4000 <? Z.of_nat (String.length prompt)) eqn:Hl.
  { split; [intros _ | reflexivity]. right; left. now apply Z.ltb_lt. }
  apply Z.ltb_ge in Hl.
  destruct (existsb hit ImageGenerationService.problematic_terms) eqn:He.
  - split; [intros _ | reflexivity]. right; right.
    apply existsb_exists in He. destruct He as [term [Hin Hc]].
    exists term. split; [exact Hin |].
    unfold Stated.substring_nocase. rewrite (problematic_terms_lower _ Hin).
    now apply contains_spec.
  - split; [discriminate |].
    intros [Hb | [Hlong | [term [Hin Hsub]]]].
    + contradiction.
    + lia.
    + exfalso. unfold Stated.substring_nocase in Hsub.
      rewrite (problematic_terms_lower _ Hin) in Hsub.
      apply contains_spec in Hsub.
      assert (existsb hit ImageGenerationService.problematic_terms = true)
        by (apply existsb_exists; eauto).
      congruence.
Qed.

(** C3. [validate_prompt] answers [False] exactly for the prompts that are
    blank (empty or whitespace only), longer than 4000 characters, or that
    contain a denylisted term in any letter case; and on every such prompt
    the service's [generate_image] raises [ValueError] at once: the state is
    untouched, so no call has left the process. *)
Theorem validate_prompt_rejects_invalid (W : World) (prompt : string) :
  (ImageGenerationService.validate_prompt prompt = false
   <-> Stated.invalid_prompt prompt)
  /\ (ImageGenerationService.validate_prompt prompt = false ->
      forall options auto_save save_dir st,
        ImageGenerationService.generate_image W prompt options auto_save save_dir st
        = (Raise (PyExn ValueError
                    "Invalid prompt: must be non-empty and under 4000 characters"),
           st)).
Proof.
  split; [apply validate_prompt_false_iff |].
  intros H options auto_save save_dir st.
  unfold ImageGenerationService.generate_image. now rewrite H.
Qed.

Lemma validate_prompt_rejects_invalid_witness :
  Stated.invalid_prompt "a GORE fest"
  /\ ImageGenerationService.generate_image Sample.fine "a GORE fest" None true
       "generated_images" Sample.empty_state
     = (Raise (PyExn ValueError
                 "Invalid prompt: must be non-empty and under 4000 characters"),
        Sample.empty_state).
Proof.
  destruct (validate_prompt_rejects_invalid Sample.fine "a GORE fest") as [Hiff Hrej].
  split.
  - apply Hiff. reflexivity.
  - apply Hrej. reflexivity.
Defined.

(** ** The provider payload *)

Lemma payload_quality (prompt : string) (options : ImageOptions.t) :
  ImageGenerationClient._construct_payload prompt options !! "quality"
  = if String.eqb (ImageOptions.model options) "dall-e-3"
       && PyStr.truthy_opt (ImageOptions.quality options)
    then Some (PStr (default "" (ImageOptions.quality options)))
    else None.
Proof.
  unfold ImageGenerationClient._construct_payload.
  destruct (String.eqb (ImageOptions.model options) "dall-e-3"
            && PyStr.truthy_opt (ImageOptions.style options));
    destruct (String.eqb (ImageOptions.model options) "dall-e-3"
              && PyStr.truthy_opt (ImageOptions.quality options));
    cbv zeta; now simplify_map_eq.
Qed.

Lemma payload_style (prompt : string) (options : ImageOptions.t) :
  ImageGenerationClient._construct_payload prompt options !! "style"
  = if String.eqb (ImageOptions.model options) "dall-e-3"
       && PyStr.truthy_opt (ImageOptions.style options)
    then Some (PStr (default "" (ImageOptions.style options)))
    else None.
Proof.
  unfold ImageGenerationClient._construct_payload.
  destruct (String.eqb (ImageOptions.model options) "dall-e-3"
            && PyStr.truthy_opt (ImageOptions.style options));
    destruct (String.eqb (ImageOptions.model options) "dall-e-3"
              && PyStr.truthy_opt (ImageOptions.quality options));
    cbv zeta; now simplify_map_eq.
Qed.

Lemma guarded_key_present (m : string) (field : option string) :
  is_Some (if String.eqb m "dall-e-3" && PyStr.truthy_opt field
           then Some (PStr (default "" field)) else None)
  <-> m = "dall-e-3" /\ PyStr.truthy_opt field = true.
Proof.
  destruct (String.eqb m "dall-e-3") eqn:Hm; cbn [andb].
  - apply String.eqb_eq in Hm.
    destruct (PyStr.truthy_opt field); split.
    + now intros _.
    + intros _. now eexists.
    + intros [x Hx]. discriminate.
    + intros [_ H]. discriminate.
  - apply String.eqb_neq in Hm. split.
    + intros [x Hx]. discriminate.
    + intros [H _]. contradiction.
Qed.

(** C5. The payload has the key [quality] exactly when the model is
    [dall-e-3] and the options' quality is set, and likewise for [style];
    for any other model neither key is in the payload, whatever the options
    hold. *)
Theorem payload_quality_style_only_for_dalle3
    (prompt : string) (options : ImageOptions.t) :
  let payload := ImageGenerationClient._construct_payload prompt options in
  (is_Some (payload !! "quality")
   <-> ImageOptions.model options = "dall-e-3"
       /\ PyStr.truthy_opt (ImageOptions.quality options) = true)
  /\ (is_Some (payload !! "style")
      <-> ImageOptions.model options = "dall-e-3"
          /\ PyStr.truthy_opt (ImageOptions.style options) = true)
  /\ (ImageOptions.model options <> "dall-e-3" ->
      payload !! "quality" = None /\ payload !! "style" = None).
Proof.
  cbv zeta. rewrite payload_quality, payload_style.
  split; [apply guarded_key_present |].
  split; [apply guarded_key_present |].
  intros Hm. apply String.eqb_neq in Hm. now rewrite Hm.
Qed.

Lemma payload_quality_style_only_for_dalle3_witness :
  let options :=
    ImageOptions.Make "dall-e-2" "512x512" (Some "hd") (Some "vivid") "url" 1 in
  ImageGenerationClient._construct_payload "a cat" options !! "quality" = None
  /\ ImageGenerationClient._construct_payload "a cat" options !! "style" = None.
Proof.
  cbv zeta.
  apply (payload_quality_style_only_for_dalle3 "a cat"
           (ImageOptions.Make "dall-e-2" "512x512" (Some "hd") (Some "vivid") "url" 1)).
  discriminate.
Defined.

(** ** Quality presets *)

(** C9. [create_options_for_quality] gives [dall-e-3] at [1024x1024] with
    quality [standard] and style [natural] for "standard"; the same model and
    size with quality [hd] and style [vivid] for "high"; [dall-e-2] at
    [512x512] for "fast", where no quality or style is passed (the fields keep
    the class defaults) and the payload built from the options has neither
    key; any other level raises [ValueError] with a message that contains the
    level. *)
Theorem create_options_for_quality_table (W : World) :
  let d := ImageOptions_defaults W in
  ImageGenerationService.create_options_for_quality W "standard"
  = Return (ImageOptions.Make "dall-e-3" "1024x1024" (Some "standard") (Some "natural")
              (ImageOptions.response_format d) (ImageOptions.n d))
  /\ ImageGenerationService.create_options_for_quality W "high"
     = Return (ImageOptions.Make "dall-e-3" "1024x1024" (Some "hd") (Some "vivid")
                 (ImageOptions.response_format d) (ImageOptions.n d))
  /\ (exists o,
        ImageGenerationService.create_options_for_quality W "fast" = Return o
        /\ ImageOptions.model o = "dall-e-2"
        /\ ImageOptions.size o = "512x512"
        /\ ImageOptions.quality o = ImageOptions.quality d
        /\ ImageOptions.style o = ImageOptions.style d
        /\ forall prompt,
             ImageGenerationClient._construct_payload prompt o !! "quality" = None
             /\ ImageGenerationClient._construct_payload prompt o !! "style" = None)
  /\ (forall level,
        level <> "standard" -> level <> "high" -> level <> "fast" ->
        exists msg,
          ImageGenerationService.create_options_for_quality W level
          = Raise (PyExn ValueError msg)
          /\ Stated.substring level msg).
Proof.
  cbv zeta. split; [reflexivity |]. split; [reflexivity |]. split.
  - eexists. split; [reflexivity |]. do 4 (split; [reflexivity |]).
    intros prompt. rewrite payload_quality, payload_style. split; reflexivity.
  - intros level H1 H2 H3.
    apply String.eqb_neq in H1, H2, H3.
    unfold ImageGenerationService.create_options_for_quality.
    rewrite H1, H2, H3. eexists. split; [reflexivity |].
    exists "Unknown quality level: ", ". Use 'standard', 'high', or 'fast'".
    reflexivity.
Qed.

Lemma create_options_for_quality_table_witness :
  exists msg,
    ImageGenerationService.create_options_for_quality Sample.fine "ultra"
    = Raise (PyExn ValueError msg)
    /\ Stated.substring "ultra" msg.
Proof.
  apply (create_options_for_quality_table Sample.fine); discriminate.
Defined.

(** ** The client's error table *)

Lemma issubclass_Exception (c : exn_class) : issubclass c Exception = true.
Proof. induction c as [|name base IH]; [reflexivity | exact IH]. Qed.

Lemma strip_truthy (s : string) :
  PyStr.truthy (PyStr.strip s) = true -> PyStr.truthy s = true.
Proof. destruct s; [discriminate | reflexivity]. Qed.

Lemma contains_nocase (sub text : string) :
  PyStr.lower sub = sub ->
  PyStr.contains sub (PyStr.lower text) = true <-> Stated.substring_nocase sub text.
Proof.
  intros H. unfold Stated.substring_nocase. rewrite H. apply contains_spec.
Qed.

(** C4. When the provider call fails with [e], the client raises an
    [ImageError] whose code follows the table in order: authentication, rate
    limit, a generic API failure with "content policy" or "safety" in its
    text (any letter case), any other generic API failure, anything else; the
    details hold the original text under [original_error]. *)
Theorem client_error_mapping (W : World) (prompt : string)
    (options : option ImageOptions.t) (st : State) (e : exn) :
  let payload :=
    ImageGenerationClient._construct_payload prompt
      (default (ImageOptions_defaults W) options) in
  PyStr.truthy (PyStr.strip prompt) = true ->
  PyStr.len prompt <= 4000 ->
  images_generate W (trace st) payload = Raise e ->
  exists ie,
    ImageGenerationClient.generate_image W prompt options st
    = (Raise (ImageErrorExn ie),
       {| heap := heap st; trace := trace st ++ [ImagesGenerate payload] |})
    /\ Stated.error_code (exn_str W e) e (ImageError.code ie)
    /\ ImageError.details ie = {[ "original_error" := exn_str W e ]}.
Proof.
  cbv zeta. intros Hs Hlen Hgen.
  unfold ImageGenerationClient.generate_image.
  rewrite Hs, (strip_truthy _ Hs). cbn [negb orb].
  apply Z.ltb_ge in Hlen. rewrite Hlen.
  unfold try_except, mbind, M_bind, call. rewrite Hgen.
  cbn [select_handler].
  destruct (isinstance e AuthenticationError) eqn:Ha.
  { eexists. split; [reflexivity |]. split; [now constructor | reflexivity]. }
  destruct (isinstance e RateLimitError) eqn:Hr.
  { eexists. split; [reflexivity |]. split; [now constructor | reflexivity]. }
  destruct (isinstance e APIError) eqn:Hp.
  - destruct (PyStr.contains "content policy" (PyStr.lower (exn_str W e))
              || PyStr.contains "safety" (PyStr.lower (exn_str W e))) eqn:Hc.
    + eexists. split; [reflexivity |]. split; [| reflexivity].
      apply Stated.code_content_policy; try assumption.
      apply orb_true_iff in Hc.
      destruct Hc as [Hc | Hc]; [left | right];
        apply contains_nocase; [reflexivity | exact Hc | reflexivity | exact Hc].
    + eexists. split; [reflexivity |]. split; [| reflexivity].
      apply Stated.code_api; try assumption.
      apply orb_false_iff in Hc. destruct Hc as [Hc1 Hc2].
      intros [H | H]; apply contains_nocase in H; try reflexivity; congruence.
  - unfold isinstance at 1. rewrite issubclass_Exception.
    eexists. split; [reflexivity |]. split; [now constructor | reflexivity].
Qed.

Lemma client_error_mapping_witness :
  exists ie,
    ImageGenerationClient.generate_image Sample.bad_key "a cat" None Sample.empty_state
    = (Raise (ImageErrorExn ie),
       {| heap := ∅;
          trace := [ImagesGenerate
                      (ImageGenerationClient._construct_payload "a cat" Sample.defaults)] |})
    /\ Stated.error_code "Incorrect API key provided"
         (PyExn AuthenticationError "Incorrect API key provided") (ImageError.code ie)
    /\ ImageError.details ie = {[ "original_error" := "Incorrect API key provided" ]}.
Proof.
  apply (client_error_mapping Sample.bad_key "a cat" None Sample.empty_state
           (PyExn AuthenticationError "Incorrect API key provided")).
  - reflexivity.
  - vm_compute. discriminate.
  - reflexivity.
Defined.

(** ** Download and save *)

Lemma download_failure_request (W : World) (u p : string) (e : exn) :
  isinstance e RequestException = true ->
  exists ie,
    download_failure W u p e = ImageErrorExn ie
    /\ ImageError.code ie = "DOWNLOAD_ERROR"
    /\ ImageError.details ie !! "error" = Some (exn_str W e).
Proof.
  intros H. unfold download_failure. rewrite H. eexists. split; [reflexivity |].
  split; [reflexivity |]. cbn. now simplify_map_eq.
Qed.

Lemma download_failure_os (W : World) (u p : string) (e : exn) :
  isinstance e RequestException = false ->
  isinstance e OSError = true ->
  exists ie,
    download_failure W u p e = ImageErrorExn ie
    /\ ImageError.code ie = "SAVE_ERROR"
    /\ ImageError.details ie !! "error" = Some (exn_str W e).
Proof.
  intros H1 H2. unfold download_failure. rewrite H1, H2. eexists.
  split; [reflexivity |]. split; [reflexivity |]. cbn. now simplify_map_eq.
Qed.

Section Download.

Context (W : World) (result : nat) (save_path : string) (st : State)
        (r : ImageResult.t).
Hypothesis Hheap : heap st !! result = Some r.

Let u : string := default "" (ImageResult.image_url r).
Let dir : string := OsPath.dirname save_path.
Let after_get : list event := trace st ++ [HttpGet u 30].
Let after_makedirs : list event := after_get ++ [Makedirs dir].

Lemma download_no_url :
  PyStr.truthy_opt (ImageResult.image_url r) = false ->
  ImageGenerationService.download_and_save_image W result save_path st
  = (Raise (ImageErrorExn
             (ImageError.Make "DOWNLOAD_ERROR"
                "No image URL available for download"
                {[ "result" := ImageResult_str W r ]})),
     st).
Proof.
  intros Hu. unfold ImageGenerationService.download_and_save_image. run.
  rewrite Hheap, Hu. reflexivity.
Qed.

Hypothesis Hurl : PyStr.truthy_opt (ImageResult.image_url r) = true.

Lemma download_get_raises (e : exn) :
  requests_get W (trace st) u 30 = Raise e ->
  ImageGenerationService.download_and_save_image W result save_path st
  = (Raise (download_failure W u save_path e),
     {| heap := heap st; trace := after_get |}).
Proof.
  intros Hget. unfold after_makedirs, after_get, dir, u in *. unfold ImageGenerationService.download_and_save_image. run.
  rewrite Hheap, Hurl. cbn [negb]. rewrite Hheap, Hget.
  cbn [select_handler]. unfold download_failure.
  destruct (isinstance e RequestException); [cbn; now rewrite Hheap |].
  destruct (isinstance e OSError); reflexivity.
Qed.

Lemma download_bad_status (resp : http_response) :
  requests_get W (trace st) u 30 = Return resp ->
  error_status (status_code resp) = true ->
  ImageGenerationService.download_and_save_image W result save_path st
  = (Raise (download_failure W u save_path (PyExn HTTPError (http_error_text resp))),
     {| heap := heap st; trace := after_get |}).
Proof.
  intros Hget Hbad. unfold after_makedirs, after_get, dir, u in *. unfold ImageGenerationService.download_and_save_image. run.
  rewrite Hheap, Hurl. cbn [negb]. rewrite Hheap, Hget.
  unfold raise_for_status. rewrite Hbad.
  cbn. now rewrite Hheap.
Qed.

Section Downloaded.

Context (resp : http_response).
Hypothesis Hget : requests_get W (trace st) u 30 = Return resp.
Hypothesis Hok : error_status (status_code resp) = false.

Let downloaded : ImageResult.t := ImageResult.set_image_data (content resp) r.

Lemma download_makedirs_raises (e : exn) :
  os_makedirs W after_get dir = Raise e ->
  ImageGenerationService.download_and_save_image W result save_path st
  = (Raise (download_failure W u save_path e),
     {| heap := <[result := downloaded]> (heap st); trace := after_makedirs |}).
Proof.
  intros Hmk. unfold after_makedirs, after_get, dir, u in *. unfold ImageGenerationService.download_and_save_image. run.
  rewrite Hheap, Hurl. cbn [negb]. rewrite Hheap, Hget.
  unfold raise_for_status. rewrite Hok. cbn [heap trace]. rewrite Hheap.
  cbn [heap trace]. rewrite Hmk.
  cbn [select_handler]. unfold download_failure.
  destruct (isinstance e RequestException).
  - cbn [heap trace]. rewrite lookup_insert_eq. reflexivity.
  - destruct (isinstance e OSError); reflexivity.
Qed.

Lemma download_write_raises (e : exn) :
  os_makedirs W after_get dir = Return tt ->
  write_file W after_makedirs save_path (content resp) = Raise e ->
  ImageGenerationService.download_and_save_image W result save_path st
  = (Raise (download_failure W u save_path e),
     {| heap := <[result := downloaded]> (heap st);
        trace := after_makedirs ++ [WriteFile save_path (content resp)] |}).
Proof.
  intros Hmk Hwr. unfold after_makedirs, after_get, dir, u in *. unfold ImageGenerationService.download_and_save_image. run.
  rewrite Hheap, Hurl. cbn [negb]. rewrite Hheap, Hget.
  unfold raise_for_status. rewrite Hok. cbn [heap trace]. rewrite Hheap.
  cbn [heap trace]. rewrite Hmk.
  cbn [heap trace]. rewrite lookup_insert_eq.
  cbn [heap trace from_option id ImageResult.image_data ImageResult.set_image_data].
  rewrite Hwr.
  cbn [select_handler]. unfold download_failure.
  destruct (isinstance e RequestException).
  - cbn [heap trace]. rewrite lookup_insert_eq. reflexivity.
  - destruct (isinstance e OSError); reflexivity.
Qed.

Lemma download_succeeds :
  os_makedirs W after_get dir = Return tt ->
  write_file W after_makedirs save_path (content resp) = Return tt ->
  ImageGenerationService.download_and_save_image W result save_path st
  = (Return result,
     {| heap := <[result := ImageResult.set_file_path save_path downloaded]> (heap st);
        trace := after_makedirs ++ [WriteFile save_path (content resp)] |}).
Proof.
  intros Hmk Hwr. unfold after_makedirs, after_get, dir, u in *. unfold ImageGenerationService.download_and_save_image. run.
  rewrite Hheap, Hurl. cbn [negb]. rewrite Hheap, Hget.
  unfold raise_for_status. rewrite Hok. cbn [heap trace]. rewrite Hheap.
  cbn [heap trace]. rewrite Hmk.
  cbn [heap trace]. rewrite lookup_insert_eq.
  cbn [heap trace from_option id ImageResult.image_data ImageResult.set_image_data].
  rewrite Hwr.
  cbn [heap trace]. rewrite lookup_insert_eq.
  cbn [heap trace]. rewrite insert_insert_eq. reflexivity.
Qed.

End Downloaded.

End Download.

(** C7, as amended. [download_and_save_image] on a result without url raises
    [DOWNLOAD_ERROR] and makes no call at all; with a url, a
    [RequestException] from the GET request or an answer whose status is
    from 400 to 599 (the statuses [raise_for_status] rejects) raises
    [DOWNLOAD_ERROR]; an answer with any other status counts as a good one.
    After a good answer, an [OSError] from [os.makedirs] or from writing the
    file raises [SAVE_ERROR], another code than [DOWNLOAD_ERROR]; when every
    step succeeds the same object is returned, with the downloaded bytes in
    [image_data] and the path in [file_path]. *)
Theorem download_and_save_image_outcomes (W : World) (result : nat)
    (save_path : string) (st : State) (r : ImageResult.t) :
  heap st !! result = Some r ->
  let run := ImageGenerationService.download_and_save_image W result save_path st in
  let u := default "" (ImageResult.image_url r) in
  let dir := OsPath.dirname save_path in
  let after_get := (trace st ++ [HttpGet u 30])%list in
  let after_makedirs := (after_get ++ [Makedirs dir])%list in
  let downloaded resp := ImageResult.set_image_data (content resp) r in
  (PyStr.truthy_opt (ImageResult.image_url r) = false ->
   exists ie, run = (Raise (ImageErrorExn ie), st)
              /\ ImageError.code ie = "DOWNLOAD_ERROR")
  /\ (PyStr.truthy_opt (ImageResult.image_url r) = true ->
      (forall e,
         requests_get W (trace st) u 30 = Raise e ->
         isinstance e RequestException = true ->
         exists ie,
           run = (Raise (ImageErrorExn ie), {| heap := heap st; trace := after_get |})
           /\ ImageError.code ie = "DOWNLOAD_ERROR")
      /\ (forall resp,
            requests_get W (trace st) u 30 = Return resp ->
            error_status (status_code resp) = true ->
            exists ie,
              run = (Raise (ImageErrorExn ie), {| heap := heap st; trace := after_get |})
              /\ ImageError.code ie = "DOWNLOAD_ERROR")
      /\ (forall resp e,
            requests_get W (trace st) u 30 = Return resp ->
            error_status (status_code resp) = false ->
            isinstance e OSError = true ->
            isinstance e RequestException = false ->
            (os_makedirs W after_get dir = Raise e ->
             exists ie,
               run = (Raise (ImageErrorExn ie),
                      {| heap := <[result := downloaded resp]> (heap st);
                         trace := after_makedirs |})
               /\ ImageError.code ie = "SAVE_ERROR")
            /\ (os_makedirs W after_get dir = Return tt ->
                write_file W after_makedirs save_path (content resp) = Raise e ->
                exists ie,
                  run = (Raise (ImageErrorExn ie),
                         {| heap := <[result := downloaded resp]> (heap st);
                            trace := (after_makedirs
                                      ++ [WriteFile save_path (content resp)])%list |})
                  /\ ImageError.code ie = "SAVE_ERROR"))
      /\ (forall resp,
            requests_get W (trace st) u 30 = Return resp ->
            error_status (status_code resp) = false ->
            os_makedirs W after_get dir = Return tt ->
            write_file W after_makedirs save_path (content resp) = Return tt ->
            run = (Return result,
                   {| heap := <[result := ImageResult.set_file_path save_path
                                            (downloaded resp)]> (heap st);
                      trace := (after_makedirs
                                ++ [WriteFile save_path (content resp)])%list |})))
  /\ "SAVE_ERROR" <> "DOWNLOAD_ERROR".
Proof.
  intros Hheap. cbv zeta. split; [| split; [| discriminate]].
  - intros Hu. rewrite (download_no_url W _ _ _ _ Hheap Hu).
    eexists. split; reflexivity.
  - intros Hu. repeat apply conj.
    + intros e Hget He.
      rewrite (download_get_raises W _ _ _ _ Hheap Hu e Hget).
      destruct (download_failure_request W (default "" (ImageResult.image_url r))
                  save_path e He) as [ie [-> [Hc _]]].
      now exists ie.
    + intros resp Hget Hbad.
      rewrite (download_bad_status W _ _ _ _ Hheap Hu resp Hget Hbad).
      eexists. split; reflexivity.
    + intros resp e Hget Hok He Hne.
      destruct (download_failure_os W (default "" (ImageResult.image_url r))
                  save_path e Hne He) as [ie [Hie [Hc _]]].
      split.
      * intros Hmk.
        rewrite (download_makedirs_raises W _ _ _ _ Hheap Hu resp Hget Hok e Hmk), Hie.
        now exists ie.
      * intros Hmk Hwr.
        rewrite (download_write_raises W _ _ _ _ Hheap Hu resp Hget Hok e Hmk Hwr), Hie.
        now exists ie.
    + intros resp Hget Hok Hmk Hwr.
      apply (download_succeeds W _ _ _ _ Hheap Hu resp Hget Hok Hmk Hwr).
Qed.

Lemma download_and_save_image_outcomes_witness :
  (exists ie,
     ImageGenerationService.download_and_save_image Sample.broken_link 0 "out/cat.png"
       Sample.one_result
     = (Raise (ImageErrorExn ie),
        {| heap := {[ 0%nat := Sample.generated ]};
           trace := [HttpGet Sample.image_url 30] |})
     /\ ImageError.code ie = "DOWNLOAD_ERROR")
  /\ ImageGenerationService.download_and_save_image Sample.fine 0 "out/cat.png"
       Sample.one_result
     = (Return 0%nat,
        {| heap := <[ 0%nat := Sample.saved ]> {[ 0%nat := Sample.generated ]};
           trace := [HttpGet Sample.image_url 30; Makedirs "out";
                     WriteFile "out/cat.png" Sample.png] |}).
Proof.
  split.
  - destruct (download_and_save_image_outcomes Sample.broken_link 0 "out/cat.png"
                Sample.one_result Sample.generated eq_refl) as [_ [H _]].
    destruct (H eq_refl) as [_ [Hbad _]].
    exact (Hbad Sample.not_found eq_refl eq_refl).
  - destruct (download_and_save_image_outcomes Sample.fine 0 "out/cat.png"
                Sample.one_result Sample.generated eq_refl) as [_ [H _]].
    destruct (H eq_refl) as [_ [_ [_ Hfine]]].
    exact (Hfine Sample.ok_response eq_refl eq_refl eq_refl eq_refl).
Defined.

(** C7, as stated: a status outside the 2xx that is not from 400 to 599 does
    not raise [DOWNLOAD_ERROR].  On the answer 304 the call returns, having
    written the (empty) body to the path and set both fields. *)
Lemma download_accepts_status_304 :
  success_status (status_code Sample.not_modified_response) = false
  /\ ImageGenerationService.download_and_save_image Sample.not_modified 0 "out/cat.png"
       Sample.one_result
     = (Return 0%nat,
        {| heap := <[ 0%nat := ImageResult.Make "gen-1" (Some Sample.image_url) None None
                                 (Some "out/cat.png") (Some []) 0 ]>
                     {[ 0%nat := Sample.generated ]};
           trace := [HttpGet Sample.image_url 30; Makedirs "out";
                     WriteFile "out/cat.png" []] |}).
Proof. split; reflexivity. Qed.

(** C10. When the download went through and [os.makedirs] or the file write
    then fails with an [OSError], the call raises [SAVE_ERROR] and leaves the
    object changed: [image_data] holds the downloaded bytes, and [file_path]
    is what it was before the call. *)
Theorem save_error_leaves_image_data (W : World) (result : nat)
    (save_path : string) (st : State) (r : ImageResult.t)
    (resp : http_response) (e : exn) :
  let u := default "" (ImageResult.image_url r) in
  let after_get := (trace st ++ [HttpGet u 30])%list in
  let after_makedirs := (after_get ++ [Makedirs (OsPath.dirname save_path)])%list in
  heap st !! result = Some r ->
  PyStr.truthy_opt (ImageResult.image_url r) = true ->
  requests_get W (trace st) u 30 = Return resp ->
  error_status (status_code resp) = false ->
  isinstance e OSError = true ->
  isinstance e RequestException = false ->
  os_makedirs W after_get (OsPath.dirname save_path) = Raise e
  \/ (os_makedirs W after_get (OsPath.dirname save_path) = Return tt
      /\ write_file W after_makedirs save_path (content resp) = Raise e) ->
  exists ie st' r',
    ImageGenerationService.download_and_save_image W result save_path st
    = (Raise (ImageErrorExn ie), st')
    /\ ImageError.code ie = "SAVE_ERROR"
    /\ heap st' !! result = Some r'
    /\ ImageResult.image_data r' = Some (content resp)
    /\ ImageResult.file_path r' = ImageResult.file_path r.
Proof.
  cbv zeta. intros Hheap Hu Hget Hok He Hne Hfail.
  destruct (download_failure_os W (default "" (ImageResult.image_url r))
              save_path e Hne He) as [ie [Hie [Hc _]]].
  exists ie.
  destruct Hfail as [Hmk | [Hmk Hwr]].
  - rewrite (download_makedirs_raises W _ _ _ _ Hheap Hu resp Hget Hok e Hmk), Hie.
    eexists. exists (ImageResult.set_image_data (content resp) r).
    split; [reflexivity |]. split; [exact Hc |].
    split; [apply lookup_insert_eq |]. split; reflexivity.
  - rewrite (download_write_raises W _ _ _ _ Hheap Hu resp Hget Hok e Hmk Hwr), Hie.
    eexists. exists (ImageResult.set_image_data (content resp) r).
    split; [reflexivity |]. split; [exact Hc |].
    split; [apply lookup_insert_eq |]. split; reflexivity.
Qed.

Lemma save_error_leaves_image_data_witness :
  exists ie st' r',
    ImageGenerationService.download_and_save_image Sample.disk_full 0 "out/cat.png"
      Sample.one_result
    = (Raise (ImageErrorExn ie), st')
    /\ ImageError.code ie = "SAVE_ERROR"
    /\ heap st' !! 0%nat = Some r'
    /\ ImageResult.image_data r' = Some Sample.png
    /\ ImageResult.file_path r' = None.
Proof.
  apply (save_error_leaves_image_data Sample.disk_full 0 "out/cat.png"
           Sample.one_result Sample.generated Sample.ok_response
           (PyExn OSError "[Errno 28] No space left on device"));
    try reflexivity.
  right. split; reflexivity.
Defined.

(** ** Generation *)

(** C8. Once the prompt has passed validation, a failure of the body of
    [generate_image] reaches the caller as follows: an [ImageError] is raised
    again as it is, with its code, message and details; any other exception
    becomes an [ImageError] with code [GENERATION_FAILED] whose message ends
    with the original text and whose details hold it under
    [original_error]. *)
Theorem generate_image_failures (W : World) (prompt : string)
    (options : option ImageOptions.t) (auto_save : bool) (save_dir : string)
    (st st' : State) (e : exn) :
  ImageGenerationService.validate_prompt prompt = true ->
  ImageGenerationService.generate_image_body W prompt
    (default (ImageOptions_defaults W) options) auto_save save_dir st
  = (Raise e, st') ->
  (forall ie, e = ImageErrorExn ie ->
     ImageGenerationService.generate_image W prompt options auto_save save_dir st
     = (Raise (ImageErrorExn ie), st'))
  /\ (isinstance e ImageErrorClass = false ->
      ImageGenerationService.generate_image W prompt options auto_save save_dir st
      = (Raise (ImageErrorExn
                  (ImageError.Make "GENERATION_FAILED"
                     ("Image generation failed: " ++ exn_str W e)
                     {[ "original_error" := exn_str W e ]})),
         st')).
Proof.
  intros Hv Hbody. unfold ImageGenerationService.generate_image.
  rewrite Hv. cbn [negb]. unfold try_except. rewrite Hbody.
  cbn [select_handler]. split.
  - intros ie ->. reflexivity.
  - intros Hne. rewrite Hne. unfold isinstance. rewrite issubclass_Exception.
    reflexivity.
Qed.

Lemma generate_image_failures_witness :
  ImageGenerationService.generate_image Sample.bad_key "a cat" None true
    "generated_images" Sample.empty_state
  = (Raise (ImageErrorExn
              (ImageError.Make "AUTHENTICATION_ERROR"
                 "Invalid API key or authentication failed"
                 {[ "original_error" := "Incorrect API key provided" ]})),
     {| heap := ∅;
        trace := [ImagesGenerate
                    (ImageGenerationClient._construct_payload "a cat" Sample.defaults)] |})
  /\ ImageGenerationService.generate_image Sample.bad_parse "a cat" None true
       "generated_images" Sample.empty_state
     = (Raise (ImageErrorExn
                 (ImageError.Make "GENERATION_FAILED"
                    "Image generation failed: 'data'"
                    {[ "original_error" := "'data'" ]})),
        {| heap := ∅;
           trace := [ImagesGenerate
                       (ImageGenerationClient._construct_payload "a cat" Sample.defaults)] |}).
Proof.
  split.
  - apply (generate_image_failures Sample.bad_key "a cat" None true "generated_images"
             Sample.empty_state _ _ eq_refl eq_refl).
    reflexivity.
  - apply (generate_image_failures Sample.bad_parse "a cat" None true "generated_images"
             Sample.empty_state _ (PyExn (Subclass "KeyError" Exception) "'data'")
             eq_refl eq_refl).
    reflexivity.
Defined.

(** ** What a returning call has done *)

Lemma client_generate_image_returns (W : World) (prompt : string)
    (options : option ImageOptions.t) (st st1 : State) (raw : raw_response) :
  ImageGenerationClient.generate_image W prompt options st = (Return raw, st1) ->
  let payload :=
    ImageGenerationClient._construct_payload prompt
      (default (ImageOptions_defaults W) options) in
  exists response,
    images_generate W (trace st) payload = Return response
    /\ raw = ImageGenerationClient._response_to_dict response
    /\ st1 = {| heap := heap st; trace := trace st ++ [ImagesGenerate payload] |}.
Proof.
  cbv zeta. unfold ImageGenerationClient.generate_image.
  destruct (negb (PyStr.truthy prompt) || negb (PyStr.truthy (PyStr.strip prompt)));
    [discriminate |].
  destruct (4000 <? PyStr.len prompt); [discriminate |].
  run.
  destruct (images_generate W (trace st) _) as [response | e] eqn:Hgen.
  - intros H. injection H as <- <-. now exists response.
  - cbn [select_handler].
    destruct (isinstance e AuthenticationError); [discriminate |].
    destruct (isinstance e RateLimitError); [discriminate |].
    destruct (isinstance e APIError).
    + destruct (PyStr.contains "content policy" _ || PyStr.contains "safety" _);
        discriminate.
    + unfold isinstance. rewrite issubclass_Exception. discriminate.
Qed.

Lemma download_returns (W : World) (result : nat) (save_path : string)
    (st st' : State) (r : ImageResult.t) (l : nat) :
  heap st !! result = Some r ->
  ImageGenerationService.download_and_save_image W result save_path st
  = (Return l, st') ->
  let u := default "" (ImageResult.image_url r) in
  let after_get := (trace st ++ [HttpGet u 30])%list in
  let after_makedirs := (after_get ++ [Makedirs (OsPath.dirname save_path)])%list in
  PyStr.truthy_opt (ImageResult.image_url r) = true
  /\ exists resp,
       requests_get W (trace st) u 30 = Return resp
       /\ error_status (status_code resp) = false
       /\ os_makedirs W after_get (OsPath.dirname save_path) = Return tt
       /\ write_file W after_makedirs save_path (content resp) = Return tt
       /\ l = result
       /\ st' = {| heap := <[result := ImageResult.set_file_path save_path
                                         (ImageResult.set_image_data (content resp) r)]>
                             (heap st);
                   trace := (after_makedirs ++ [WriteFile save_path (content resp)])%list |}.
Proof.
  intros Hheap Hrun. cbv zeta.
  destruct (PyStr.truthy_opt (ImageResult.image_url r)) eqn:Hu.
  2:{ rewrite (download_no_url W _ _ _ _ Hheap Hu) in Hrun. discriminate. }
  split; [reflexivity |].
  destruct (requests_get W (trace st) (default "" (ImageResult.image_url r)) 30)
    as [resp | e] eqn:Hget.
  2:{ rewrite (download_get_raises W _ _ _ _ Hheap Hu e Hget) in Hrun. discriminate. }
  destruct (error_status (status_code resp)) eqn:Hok.
  { rewrite (download_bad_status W _ _ _ _ Hheap Hu resp Hget Hok) in Hrun.
    discriminate. }
  destruct (os_makedirs W (trace st ++ [HttpGet (default "" (ImageResult.image_url r)) 30])
              (OsPath.dirname save_path)) as [[] | e] eqn:Hmk.
  2:{ rewrite (download_makedirs_raises W _ _ _ _ Hheap Hu resp Hget Hok e Hmk) in Hrun.
      discriminate. }
  destruct (write_file W
              ((trace st ++ [HttpGet (default "" (ImageResult.image_url r)) 30])
               ++ [Makedirs (OsPath.dirname save_path)])
              save_path (content resp)) as [[] | e] eqn:Hwr.
  2:{ rewrite (download_write_raises W _ _ _ _ Hheap Hu resp Hget Hok e Hmk Hwr) in Hrun.
      discriminate. }
  rewrite (download_succeeds W _ _ _ _ Hheap Hu resp Hget Hok Hmk Hwr) in Hrun.
  injection Hrun as <- <-. exists resp. repeat (split; [reflexivity || assumption |]).
  reflexivity.
Qed.

Lemma handlers_of_generate_image_raise (W : World) (e : exn) (st : State)
    (l : nat) (st' : State) :
  match
    select_handler e
      [ (ImageErrorClass, fun e => raise e);
        (Exception, fun e : exn =>
           raise (A := nat) (ImageErrorExn
             (ImageError.Make "GENERATION_FAILED"
                ("Image generation failed: " ++ exn_str W e)
                {[ "original_error" := exn_str W e ]}))) ]
  with
  | Some h => h e st
  | None => (Raise e, st)
  end <> (Return l, st').
Proof.
  cbn [select_handler]. destruct (isinstance e ImageErrorClass); [discriminate |].
  unfold isinstance. rewrite issubclass_Exception. discriminate.
Qed.

Lemma generate_image_returns (W : World) (prompt : string)
    (options : option ImageOptions.t) (auto_save : bool) (save_dir : string)
    (st st' : State) (l : nat) :
  ImageGenerationService.generate_image W prompt options auto_save save_dir st
  = (Return l, st') ->
  let payload :=
    ImageGenerationClient._construct_payload prompt
      (default (ImageOptions_defaults W) options) in
  let t1 := (trace st ++ [ImagesGenerate payload])%list in
  exists response parsed,
    ImageGenerationService.validate_prompt prompt = true
    /\ images_generate W (trace st) payload = Return response
    /\ parser_parse W t1 (ImageGenerationClient._response_to_dict response) prompt
       = Return parsed
    /\ l = fresh (dom (heap st))
    /\ if auto_save && PyStr.truthy_opt (ImageResult.image_url parsed)
       then
         exists resp,
           let u := default "" (ImageResult.image_url parsed) in
           let path :=
             OsPath.join save_dir
               (ImageGenerationService.safe_filename_at (datetime_now W t1) prompt
                  (ImageResult.generation_id parsed)) in
           requests_get W t1 u 30 = Return resp
           /\ st' = {| heap := <[l := ImageResult.set_file_path path
                                        (ImageResult.set_image_data (content resp) parsed)]>
                                 (heap st);
                       trace := (t1 ++ [HttpGet u 30; Makedirs (OsPath.dirname path);
                                        WriteFile path (content resp)])%list |}
       else st' = {| heap := <[l := parsed]> (heap st); trace := t1 |}.
Proof.
  cbv zeta. unfold ImageGenerationService.generate_image.
  destruct (ImageGenerationService.validate_prompt prompt); [| discriminate].
  cbn [negb]. unfold try_except.
  destruct (ImageGenerationService.generate_image_body W prompt _ auto_save save_dir st)
    as [[l0 | e] st0] eqn:Hbody.
  2:{ intros H. now apply handlers_of_generate_image_raise in H. }
  intros H. injection H as <- <-.
  unfold ImageGenerationService.generate_image_body in Hbody.
  unfold mbind, M_bind in Hbody.
  destruct (ImageGenerationClient.generate_image W prompt _ st)
    as [[raw | e] st1] eqn:Hc; [| discriminate].
  apply client_generate_image_returns in Hc. cbv zeta in Hc.
  destruct Hc as [response [Hgen [-> ->]]].
  cbn [default from_option id] in Hgen, Hbody.
  cbn [heap trace] in Hbody.
  destruct (parser_parse W _ _ prompt) as [parsed | e] eqn:Hp; [| discriminate].
  unfold alloc, read in Hbody. cbn [heap trace] in Hbody.
  rewrite lookup_insert_eq in Hbody.
  exists response, parsed. split; [reflexivity |]. split; [exact Hgen |].
  split; [exact Hp |].
  destruct (auto_save && PyStr.truthy_opt (ImageResult.image_url parsed)).
  - unfold ImageGenerationService._generate_safe_filename in Hbody.
    cbn [heap trace] in Hbody.
    apply (download_returns W _ _ _ _ parsed) in Hbody;
      [| cbn [heap]; apply lookup_insert_eq].
    cbv zeta in Hbody. cbn [heap trace] in Hbody.
    destruct Hbody as [_ [resp [Hget [_ [_ [_ [-> ->]]]]]]].
    split; [reflexivity |]. exists resp. split; [exact Hget |].
    rewrite insert_insert_eq, <- !app_assoc. reflexivity.
  - unfold mret, M_ret in Hbody. injection Hbody as <- <-. split; reflexivity.
Qed.

(** ** Generate and save *)

(** C1. [generate_and_save] calls [generate_image] with the default
    [auto_save=True], so whenever it returns, the image has been fetched and
    written twice: first by the generation step, to a computed name under
    [generated_images], and then to the path the caller gave. *)
Theorem generate_and_save_downloads_twice (W : World) (prompt save_path : string)
    (options : option ImageOptions.t) (st st' : State) (l : nat) :
  ImageGenerationService.generate_and_save W prompt save_path options st
  = (Return l, st') ->
  exists parsed resp1 resp2,
    let payload :=
      ImageGenerationClient._construct_payload prompt
        (default (ImageOptions_defaults W) options) in
    let t1 := (trace st ++ [ImagesGenerate payload])%list in
    let u := default "" (ImageResult.image_url parsed) in
    let path :=
      OsPath.join "generated_images"
        (ImageGenerationService.safe_filename_at (datetime_now W t1) prompt
           (ImageResult.generation_id parsed)) in
    trace st'
    = (trace st
       ++ [ImagesGenerate payload;
           HttpGet u 30; Makedirs (OsPath.dirname path); WriteFile path (content resp1);
           HttpGet u 30; Makedirs (OsPath.dirname save_path);
           WriteFile save_path (content resp2)])%list.
Proof.
  unfold ImageGenerationService.generate_and_save, mbind, M_bind.
  destruct (ImageGenerationService.generate_image W prompt options _ _ st)
    as [[l0 | e] st1] eqn:Hg; [| discriminate].
  intros Hd. apply generate_image_returns in Hg. cbv zeta in Hg.
  destruct Hg as [response [parsed [_ [_ [_ [-> Hst1]]]]]].
  unfold ImageGenerationService.default_auto_save in Hst1. cbn [andb] in Hst1.
  destruct (PyStr.truthy_opt (ImageResult.image_url parsed)) eqn:Hu.
  - destruct Hst1 as [resp1 [_ ->]].
    eapply download_returns in Hd; [| cbn [heap]; apply lookup_insert_eq].
    cbv zeta in Hd. destruct Hd as [_ [resp2 [_ [_ [_ [_ [_ ->]]]]]]].
    exists parsed, resp1, resp2. cbv zeta. cbn [trace].
    cbn [ImageResult.image_url ImageResult.set_file_path ImageResult.set_image_data].
    rewrite <- !app_assoc. reflexivity.
  - subst st1.
    eapply download_returns in Hd; [| cbn [heap]; apply lookup_insert_eq].
    destruct Hd as [Hd _]. congruence.
Qed.

Lemma generate_and_save_downloads_twice_witness :
  exists parsed resp1 resp2,
    let path :=
      OsPath.join "generated_images"
        (ImageGenerationService.safe_filename_at Sample.noon "a cat"
           (ImageResult.generation_id parsed)) in
    trace (snd (ImageGenerationService.generate_and_save Sample.fine "a cat"
                  "out/cat.png" None Sample.empty_state))
    = [ImagesGenerate (ImageGenerationClient._construct_payload "a cat" Sample.defaults);
       HttpGet (default "" (ImageResult.image_url parsed)) 30;
       Makedirs (OsPath.dirname path);
       WriteFile path (content resp1);
       HttpGet (default "" (ImageResult.image_url parsed)) 30;
       Makedirs "out";
       WriteFile "out/cat.png" (content resp2)].
Proof.
  destruct (generate_and_save_downloads_twice Sample.fine "a cat" "out/cat.png" None
              Sample.empty_state
              (snd (ImageGenerationService.generate_and_save Sample.fine "a cat"
                      "out/cat.png" None Sample.empty_state))
              0%nat eq_refl) as [parsed [resp1 [resp2 H]]].
  exists parsed, resp1, resp2. exact H.
Defined.

(** On the sample world: one generation request, then two downloads of the
    same url and two files. *)
Lemma generate_and_save_sample_run :
  Sample.downloads
    (trace (snd (ImageGenerationService.generate_and_save Sample.fine "a cat"
                   "out/cat.png" None Sample.empty_state)))
  = [HttpGet Sample.image_url 30;
     Makedirs "generated_images";
     WriteFile "generated_images/a_cat_20250101_120000_gen-1.png" Sample.png;
     HttpGet Sample.image_url 30;
     Makedirs "out";
     WriteFile "out/cat.png" Sample.png].
Proof. vm_compute. reflexivity. Qed.

(** ** What the service returns

    [generate_image] has no check of its own on the result: the object it
    returns carries the url and the base64 payload the parser produced. *)

Lemma generate_image_returns_parsed (W : World) (prompt : string)
    (options : option ImageOptions.t) (auto_save : bool) (save_dir : string)
    (st st' : State) (l : nat) :
  ImageGenerationService.generate_image W prompt options auto_save save_dir st
  = (Return l, st') ->
  exists r h raw parsed,
    heap st' !! l = Some r
    /\ parser_parse W h raw prompt = Return parsed
    /\ ImageResult.image_url r = ImageResult.image_url parsed
    /\ ImageResult.b64_json r = ImageResult.b64_json parsed.
Proof.
  intros Hg. apply generate_image_returns in Hg. cbv zeta in Hg.
  destruct Hg as [response [parsed [_ [_ [Hp [-> Hst']]]]]].
  destruct (auto_save && PyStr.truthy_opt (ImageResult.image_url parsed)).
  - destruct Hst' as [resp [_ ->]].
    eexists _, _, _, parsed. split; [cbn [heap]; apply lookup_insert_eq |].
    split; [exact Hp |]. split; reflexivity.
  - subst st'.
    eexists _, _, _, parsed. split; [cbn [heap]; apply lookup_insert_eq |].
    split; [exact Hp |]. split; reflexivity.
Qed.

(** If every result the parser returns has its url or its base64 payload,
    so has every result the service returns. *)
Theorem generate_image_keeps_parser_guarantee (W : World) (prompt : string)
    (options : option ImageOptions.t) (auto_save : bool) (save_dir : string)
    (st st' : State) (l : nat) :
  (forall h raw p parsed,
     parser_parse W h raw p = Return parsed -> ImageResult.populated parsed = true) ->
  ImageGenerationService.generate_image W prompt options auto_save save_dir st
  = (Return l, st') ->
  exists r, heap st' !! l = Some r /\ ImageResult.populated r = true.
Proof.
  intros Hparser Hg. apply generate_image_returns_parsed in Hg.
  destruct Hg as [r [h [raw [parsed [Hl [Hp [Hu Hb]]]]]]].
  exists r. split; [exact Hl |].
  apply Hparser in Hp. unfold ImageResult.populated in *. now rewrite Hu, Hb.
Qed.

Lemma generate_image_keeps_parser_guarantee_witness :
  exists r,
    heap (snd (ImageGenerationService.generate_image Sample.steady_parse "a cat" None
                 false "generated_images" Sample.empty_state)) !! 0%nat = Some r
    /\ ImageResult.populated r = true.
Proof.
  apply (generate_image_keeps_parser_guarantee Sample.steady_parse "a cat" None false
           "generated_images" Sample.empty_state _ 0%nat).
  - intros h raw p parsed H. injection H as <-. reflexivity.
  - reflexivity.
Defined.

(** The guarantee is the parser's alone: with a parser that returns a result
    without url and base64 payload, the service returns that result. *)
Lemma generate_image_returns_hollow_result :
  exists st' r,
    ImageGenerationService.generate_image Sample.hollow_parse "a cat" None true
      "generated_images" Sample.empty_state
    = (Return 0%nat, st')
    /\ heap st' !! 0%nat = Some r
    /\ ImageResult.populated r = false.
Proof. eexists _, _. split; [| split]; vm_compute; reflexivity. Qed.

(** ** The file-name rule *)

Section StringsAsLists.

Lemma string_of_list_app (l m : list ascii) :
  string_of_list_ascii (l ++ m) = string_of_list_ascii l ++ string_of_list_ascii m.
Proof. induction l as [|c l IH]; [reflexivity |]. cbn. now rewrite IH. Qed.

Lemma length_string_of_list (l : list ascii) :
  String.length (string_of_list_ascii l) = List.length l.
Proof. induction l as [|c l IH]; [reflexivity |]. cbn. now rewrite IH. Qed.

Lemma lower_as_map (s : string) :
  PyStr.lower s
  = string_of_list_ascii (map PyStr.lower_char (list_ascii_of_string s)).
Proof. induction s as [|c s IH]; [reflexivity |]. cbn. now rewrite IH. Qed.

Lemma sub_class_empty_as_filter (cls kept : ascii -> bool) (l : list ascii) :
  (forall c, kept c = negb (cls c)) ->
  Re.sub_class cls "" (string_of_list_ascii l)
  = string_of_list_ascii (List.filter kept l).
Proof.
  intros H. induction l as [|c l IH]; [reflexivity |].
  cbn. rewrite H. destruct (cls c); cbn; now rewrite IH.
Qed.

Lemma take_as_firstn (k : nat) (l : list ascii) :
  PyStr.take k (string_of_list_ascii l) = string_of_list_ascii (firstn k l).
Proof.
  revert l; induction k as [|k IH]; intros [|c l]; try reflexivity.
  cbn. now rewrite IH.
Qed.

Lemma rstrip_snoc (p : ascii -> bool) (s : string) (c : ascii) :
  PyStr.rstrip_by p (s ++ String c "")
  = if p c then PyStr.rstrip_by p s else s ++ String c "".
Proof.
  induction s as [|a s IH].
  - change ("" ++ String c "") with (String c ""). cbn.
    destruct (p c); reflexivity.
  - change (String a s ++ String c "") with (String a (s ++ String c "")).
    cbn [PyStr.rstrip_by]. rewrite IH. destruct (p c); [reflexivity |].
    destruct s; reflexivity.
Qed.

Lemma rstrip_as_drop_while (p q : ascii -> bool) (l : list ascii) :
  (forall c, q c = p c) ->
  PyStr.rstrip_by p (string_of_list_ascii l)
  = string_of_list_ascii (rev (Stated.drop_while q (rev l))).
Proof.
  intros H. induction l as [|c l IH] using rev_ind; [reflexivity |].
  rewrite string_of_list_app, rev_app_distr. cbn [rev app Stated.drop_while string_of_list_ascii].
  rewrite rstrip_snoc, H. destruct (p c).
  - exact IH.
  - cbn [rev]. now rewrite rev_involutive, string_of_list_app.
Qed.

End StringsAsLists.

(** *** Runs *)

Section Runs.

Context (p q : ascii -> bool).
Hypothesis Hpq : forall c, q c = p c.

Lemma runs_head (l : list ascii) :
  match Stated.runs q l with
  | [] => l = []
  | (b, _) :: _ => b = starts_in_class q l
  end.
Proof.
  destruct l as [|c l]; [reflexivity |]. cbn.
  destruct (Stated.runs q l) as [|[b g] rest]; [reflexivity |].
  destruct (Bool.eqb b (q c)) eqn:Hb; [| reflexivity].
  now apply Bool.eqb_prop in Hb.
Qed.

(** Inside a match the scanner emits nothing for the rest of the run. *)
Lemma sub_class_plus_from_split (l : list ascii) :
  Re.sub_class_plus_from p "_" false (string_of_list_ascii l)
  = (if starts_in_class q l then "_" else "")
    ++ Re.sub_class_plus_from p "_" true (string_of_list_ascii l).
Proof.
  destruct l as [|c l]; [reflexivity |].
  cbn. rewrite Hpq. now destruct (p c).
Qed.

Lemma collapse_runs_as_sub (l : list ascii) :
  string_of_list_ascii (Stated.collapse_runs q l)
  = Re.sub_class_plus_from p "_" false (string_of_list_ascii l).
Proof.
  induction l as [|c l IH]; [reflexivity |].
  pose proof (runs_head l) as Hhead.
  pose proof (sub_class_plus_from_split l) as Hsplit.
  unfold Stated.collapse_runs in *. cbn [Stated.runs string_of_list_ascii].
  cbn [Re.sub_class_plus_from]. rewrite <- Hpq.
  destruct (Stated.runs q l) as [|[b g] rest].
  - subst l. cbn. destruct (q c); reflexivity.
  - cbn [map concat fst snd] in IH. rewrite <- Hhead in Hsplit.
    destruct (q c), b; cbn [Bool.eqb map concat fst snd].
    + rewrite IH, Hsplit. reflexivity.
    + change (Re.sub_class_plus_from p "_" false (string_of_list_ascii l)
              = Re.sub_class_plus_from p "_" true (string_of_list_ascii l)) in Hsplit.
      rewrite <- Hsplit, <- IH. reflexivity.
    + rewrite <- IH. reflexivity.
    + rewrite <- IH. reflexivity.
Qed.

End Runs.

Lemma clean_prompt_as_rule (prompt : string) :
  ImageGenerationService.clean_prompt prompt
  = string_of_list_ascii
      (Stated.truncate_trim 50
         (Stated.collapse_runs Stated.hyphen_or_space
            (List.filter Stated.kept_with_underscore
               (map PyStr.lower_char (list_ascii_of_string prompt))))).
Proof.
  unfold ImageGenerationService.clean_prompt. cbv zeta.
  rewrite lower_as_map.
  rewrite (sub_class_empty_as_filter _ Stated.kept_with_underscore).
  2:{ intros c. unfold ImageGenerationService.not_word_space_hyphen.
      now rewrite negb_involutive. }
  unfold Re.sub_class_plus.
  rewrite <- (collapse_runs_as_sub _ Stated.hyphen_or_space).
  2:{ intros c. apply orb_comm. }
  set (l := Stated.collapse_runs _ _).
  unfold PyStr.len, Stated.truncate_trim. rewrite length_string_of_list.
  destruct (List.length l <=? 50)%nat eqn:Hlen.
  - apply Nat.leb_le in Hlen.
    destruct (50 <? Z.of_nat (List.length l)) eqn:Hz; [| reflexivity].
    apply Z.ltb_lt in Hz. lia.
  - apply Nat.leb_gt in Hlen.
    destruct (50 <? Z.of_nat (List.length l)) eqn:Hz.
    + rewrite take_as_firstn. unfold PyStr.rstrip_char.
      apply rstrip_as_drop_while. intros c. apply Ascii.eqb_sym.
    + apply Z.ltb_ge in Hz. lia.
Qed.

(** C2, as amended. For every prompt, generation id and clock reading, the
    file name is the result of: lowercasing the prompt; stripping every
    character that is not alphanumeric, underscore, whitespace or hyphen;
    turning each run of whitespace and hyphens into one underscore; cutting
    a text longer than 50 characters to its first 50 and trimming the
    underscores at the end of the cut; then appending an underscore, the
    timestamp, an underscore, the generation id and [.png].  For the prompt
    "A cat wearing a space helmet!" and the id "gen-abc123" the name is
    [a_cat_wearing_a_space_helmet_<timestamp>_gen-abc123.png]. *)
Theorem safe_filename_rule (now : datetime) (prompt generation_id : string) :
  ImageGenerationService.safe_filename_at now prompt generation_id
  = Stated.filename_rule Stated.kept_with_underscore now prompt generation_id
  /\ ImageGenerationService.safe_filename_at now "A cat wearing a space helmet!"
       "gen-abc123"
     = "a_cat_wearing_a_space_helmet_"
       ++ ImageGenerationService.strftime_Ymd_HMS now ++ "_gen-abc123.png".
Proof.
  split.
  - unfold ImageGenerationService.safe_filename_at, Stated.filename_rule.
    cbv zeta. now rewrite clean_prompt_as_rule.
  - reflexivity.
Qed.

(** C2, as stated: with the underscore among the stripped characters the
    rule gives another name than the code for the prompt [a_b]. *)
Lemma safe_filename_keeps_underscore :
  ImageGenerationService.safe_filename_at Sample.noon "a_b" "gen-1"
  = "a_b_20250101_120000_gen-1.png"
  /\ Stated.filename_rule Stated.kept_as_stated Sample.noon "a_b" "gen-1"
     = "ab_20250101_120000_gen-1.png"
  /\ ImageGenerationService.safe_filename_at Sample.noon "a_b" "gen-1"
     <> Stated.filename_rule Stated.kept_as_stated Sample.noon "a_b" "gen-1".
Proof.
  split; [reflexivity |]. split; [reflexivity |]. vm_compute. discriminate.
Qed.

(** The underscores at the end are trimmed only from a text that was cut: a
    short prompt that ends in whitespace keeps its final underscore. *)
Lemma clean_prompt_examples :
  ImageGenerationService.clean_prompt "two  words - " = "two_words_"
  /\ ImageGenerationService.clean_prompt
       "a very long prompt with forty-eight characters __ and then more"
     = "a_very_long_prompt_with_forty_eight_characters".
Proof. split; reflexivity. Qed.

(** The timestamp has the shape [YYYYMMDD_HHMMSS]. *)
Lemma strftime_example :
  ImageGenerationService.strftime_Ymd_HMS Sample.noon = "20250101_120000".
Proof. reflexivity. Qed.

(** ** Further properties of the pipeline *)

(** The client turns down a blank prompt and one longer than 4000
    characters with [ValueError] before the provider is called. *)
Theorem client_rejects_before_request (W : World) (prompt : string)
    (options : option ImageOptions.t) (st : State) :
  Stated.blank prompt \/ 4000 < PyStr.len prompt ->
  exists msg,
    ImageGenerationClient.generate_image W prompt options st
    = (Raise (PyExn ValueError msg), st).
Proof.
  intros H. unfold ImageGenerationClient.generate_image.
  destruct (PyStr.truthy (PyStr.strip prompt)) eqn:Hs.
  - rewrite (strip_truthy _ Hs). cbn [negb orb].
    destruct H as [Hb | Hlong].
    + apply strip_blank in Hb. congruence.
    + apply Z.ltb_lt in Hlong. rewrite Hlong. now eexists.
  - rewrite orb_true_r. now eexists.
Qed.

Lemma client_rejects_before_request_witness :
  exists msg,
    ImageGenerationClient.generate_image Sample.fine "   " None Sample.empty_state
    = (Raise (PyExn ValueError msg), Sample.empty_state).
Proof.
  apply (client_rejects_before_request Sample.fine "   " None Sample.empty_state).
  left. repeat constructor.
Defined.

(** The raw mapping: [created] is the provider's value, or 0 when the
    provider omits it; [data] has one entry per image, in the same order,
    and the entry of an image has a key exactly when the image object has
    the attribute, with the attribute's value. *)
Theorem response_to_dict_fields (response : images_response) :
  let raw := ImageGenerationClient._response_to_dict response in
  created raw = default (PInt 0) (resp_created response)
  /\ (resp_created response = None -> created raw = PInt 0)
  /\ List.length (data raw) = List.length (resp_data response)
  /\ forall (i : nat) (image : image_object),
       resp_data response !! i = Some image ->
       exists entry,
         data raw !! i = Some entry
         /\ entry !! "url" = url image
         /\ entry !! "b64_json" = b64_json image
         /\ entry !! "revised_prompt" = revised_prompt image
         /\ forall key,
              is_Some (entry !! key) -> In key ["url"; "b64_json"; "revised_prompt"].
Proof.
  cbv zeta. unfold ImageGenerationClient._response_to_dict. cbn [created data].
  split; [reflexivity |]. split; [intros H; now rewrite H |].
  split; [apply length_map |].
  intros i image Hi. exists (ImageGenerationClient.image_to_dict image).
  split; [rewrite list_lookup_fmap, Hi; reflexivity |].
  destruct image as [u b p]. unfold ImageGenerationClient.image_to_dict. cbn.
  destruct u, b, p;
    (repeat (split; [rewrite ?lookup_insert_ne by discriminate;
                     first [now rewrite lookup_insert_eq | now rewrite lookup_empty] |]));
    intros key [v Hv];
    repeat (rewrite lookup_insert in Hv; case_decide; [subst key; cbn; tauto |]);
    rewrite lookup_empty in Hv; discriminate.
Qed.

Lemma response_to_dict_fields_witness :
  exists entry,
    data (ImageGenerationClient._response_to_dict Sample.one_image) !! 0%nat = Some entry
    /\ entry !! "url" = Some (PStr Sample.image_url)
    /\ entry !! "b64_json" = None
    /\ entry !! "revised_prompt" = None
    /\ forall key,
         is_Some (entry !! key) -> In key ["url"; "b64_json"; "revised_prompt"].
Proof.
  destruct (response_to_dict_fields Sample.one_image) as [_ [_ [_ H]]].
  apply (H 0%nat {| url := Some (PStr Sample.image_url);
                    b64_json := None; revised_prompt := None |}).
  reflexivity.
Defined.

(** With [auto_save] on, a returned result that has a url also has the
    downloaded bytes and the path of the file, and the file write is the
    last call made. *)
Theorem auto_save_fills_result (W : World) (prompt : string)
    (options : option ImageOptions.t) (save_dir : string)
    (st st' : State) (l : nat) :
  ImageGenerationService.generate_image W prompt options true save_dir st
  = (Return l, st') ->
  exists r,
    heap st' !! l = Some r
    /\ (PyStr.truthy_opt (ImageResult.image_url r) = true ->
        exists path bytes_read,
          ImageResult.file_path r = Some path
          /\ ImageResult.image_data r = Some bytes_read
          /\ last (trace st') = Some (WriteFile path bytes_read)).
Proof.
  intros Hg. apply generate_image_returns in Hg. cbv zeta in Hg.
  destruct Hg as [response [parsed [_ [_ [_ [-> Hst']]]]]]. cbn [andb] in Hst'.
  destruct (PyStr.truthy_opt (ImageResult.image_url parsed)) eqn:Hu.
  - destruct Hst' as [resp [_ ->]]. eexists. cbn [heap trace].
    split; [apply lookup_insert_eq |]. intros _. eexists _, _.
    split; [reflexivity |]. split; [reflexivity |].
    rewrite last_app. reflexivity.
  - subst st'. exists parsed. cbn [heap]. split; [apply lookup_insert_eq |].
    congruence.
Qed.

Lemma auto_save_fills_result_witness :
  exists r,
    heap (snd (ImageGenerationService.generate_image Sample.fine "a cat" None true
                 "generated_images" Sample.empty_state)) !! 0%nat = Some r
    /\ (PyStr.truthy_opt (ImageResult.image_url r) = true ->
        exists path bytes_read,
          ImageResult.file_path r = Some path
          /\ ImageResult.image_data r = Some bytes_read
          /\ last (trace (snd (ImageGenerationService.generate_image Sample.fine "a cat"
                                 None true "generated_images" Sample.empty_state)))
             = Some (WriteFile path bytes_read)).
Proof.
  apply (auto_save_fills_result Sample.fine "a cat" None "generated_images"
           Sample.empty_state _ 0%nat).
  reflexivity.
Defined.

(** ** Construction and the key format *)

Lemma truthy_opt_some (o : option string) :
  PyStr.truthy_opt o = true -> o = Some (default "" o) /\ PyStr.truthy (default "" o) = true.
Proof. destruct o as [s|]; [| discriminate]. intros H. now split. Qed.

(** The client is built exactly when the key passed in, or else the
    environment variable [OPENAI_API_KEY], is a non-empty string; the key it
    keeps is the one passed in when that is non-empty (the environment is
    then not consulted), and the variable's value otherwise. *)
Theorem client_init_key (getenv : string -> option string)
    (passed : option string) (c : client_object) :
  ImageGenerationClient_init getenv passed = Return c
  <-> PyStr.truthy (api_key c) = true
      /\ (passed = Some (api_key c)
          \/ (PyStr.truthy_opt passed = false
              /\ getenv "OPENAI_API_KEY" = Some (api_key c))).
Proof.
  unfold ImageGenerationClient_init. destruct c as [k]. cbn [api_key].
  destruct (PyStr.truthy_opt passed) eqn:Hp.
  - rewrite Hp. cbn [negb]. apply truthy_opt_some in Hp. destruct Hp as [Hp Ht].
    split.
    + intros H. injection H as <-. split; [exact Ht |]. now left.
    + intros [Hk [H | [H _]]]; [| discriminate]. rewrite H. reflexivity.
  - destruct (PyStr.truthy_opt (getenv "OPENAI_API_KEY")) eqn:He; cbn [negb].
    + apply truthy_opt_some in He. destruct He as [He Ht]. split.
      * intros H. injection H as <-. split; [exact Ht |]. right. now split.
      * intros [Hk [H | [_ H]]].
        -- rewrite H in Hp. cbn in Hp. congruence.
        -- rewrite H. reflexivity.
    + split; [discriminate |].
      intros [Hk [H | [_ H]]].
      * rewrite H in Hp. cbn in Hp. congruence.
      * rewrite H in He. cbn in He. congruence.
Qed.

Lemma client_init_key_witness :
  ImageGenerationClient_init (fun _ => Some "sk-from-environment") (Some "")
  = Return {| api_key := "sk-from-environment" |}.
Proof.
  apply (client_init_key (fun _ => Some "sk-from-environment") (Some "")
           {| api_key := "sk-from-environment" |}).
  split; [reflexivity |]. right. split; reflexivity.
Defined.

(** The service never falls back to the environment: without a non-empty
    key of its own it raises [ValueError], whatever the environment holds,
    and with one its client keeps exactly that key. *)
Theorem service_init_key (getenv : string -> option string) (passed : option string) :
  (PyStr.truthy_opt passed = false ->
   ImageGenerationService_init getenv passed
   = Raise (PyExn ValueError "API key is required"))
  /\ (forall key,
        passed = Some key -> PyStr.truthy key = true ->
        ImageGenerationService_init getenv passed
        = Return {| client := {| api_key := key |} |}).
Proof.
  unfold ImageGenerationService_init, ImageGenerationClient_init. split.
  - intros H. now rewrite H.
  - intros key -> Ht. cbn [PyStr.truthy_opt]. rewrite Ht. cbn [negb PyStr.truthy_opt].
    rewrite Ht. reflexivity.
Qed.

Lemma service_init_key_witness :
  ImageGenerationService_init (fun _ => Some "sk-from-environment") None
  = Raise (PyExn ValueError "API key is required")
  /\ ImageGenerationClient_init (fun _ => Some "sk-from-environment") None
     = Return {| api_key := "sk-from-environment" |}.
Proof.
  split.
  - apply (service_init_key (fun _ => Some "sk-from-environment") None). reflexivity.
  - reflexivity.
Defined.

Lemma length_append (a b : string) :
  String.length (a ++ b) = (String.length a + String.length b)%nat.
Proof. induction a as [|c a IH]; [reflexivity |]. cbn. now rewrite <- IH. Qed.

(** [validate_api_key] accepts exactly the keys that are [sk-] followed by
    at least 18 more characters. *)
Theorem validate_api_key_format (key : string) :
  ImageGenerationClient.validate_api_key key = true
  <-> exists rest, key = "sk-" ++ rest /\ (18 <= String.length rest)%nat.
Proof.
  unfold ImageGenerationClient.validate_api_key, PyStr.len.
  rewrite andb_true_iff, startswith_spec, Z.ltb_lt. split.
  - intros [[rest ->] Hlen]. exists rest. split; [reflexivity |].
    rewrite length_append in Hlen. cbn in Hlen. lia.
  - intros [rest [-> Hlen]]. split; [now exists rest |].
    rewrite length_append. cbn. lia.
Qed.

Lemma validate_api_key_format_witness :
  ImageGenerationClient.validate_api_key "sk-0123456789abcdefgh" = true.
Proof.
  apply (validate_api_key_format "sk-0123456789abcdefgh").
  exists "0123456789abcdefgh". split; [reflexivity |]. cbn. lia.
Defined.

(** ** The client's outcomes *)

Lemma client_valid_prompt (prompt : string) :
  PyStr.truthy (PyStr.strip prompt) = true ->
  PyStr.len prompt <= 4000 ->
  negb (PyStr.truthy prompt) || negb (PyStr.truthy (PyStr.strip prompt)) = false
  /\ (4000 <? PyStr.len prompt) = false.
Proof.
  intros Hs Hlen. rewrite Hs, (strip_truthy _ Hs). split; [reflexivity |].
  now apply Z.ltb_ge.
Qed.

Lemma client_one_request (W : World) (prompt : string)
    (options : option ImageOptions.t) (st : State) :
  PyStr.truthy (PyStr.strip prompt) = true ->
  PyStr.len prompt <= 4000 ->
  let payload :=
    ImageGenerationClient._construct_payload prompt
      (default (ImageOptions_defaults W) options) in
  snd (ImageGenerationClient.generate_image W prompt options st)
  = {| heap := heap st; trace := trace st ++ [ImagesGenerate payload] |}
  /\ forall response,
       images_generate W (trace st) payload = Return response ->
       fst (ImageGenerationClient.generate_image W prompt options st)
       = Return (ImageGenerationClient._response_to_dict response).
Proof.
  intros Hs Hlen. cbv zeta.
  destruct (client_valid_prompt prompt Hs Hlen) as [H1 H2].
  unfold ImageGenerationClient.generate_image. rewrite H1, H2. run.
  destruct (images_generate W (trace st) _) as [response | e].
  - split; [reflexivity |]. intros r Hr. now injection Hr as <-.
  - split; [| discriminate]. cbn [select_handler].
    destruct (isinstance e AuthenticationError); [reflexivity |].
    destruct (isinstance e RateLimitError); [reflexivity |].
    destruct (isinstance e APIError).
    + now destruct (PyStr.contains "content policy" _ || PyStr.contains "safety" _).
    + unfold isinstance. now rewrite issubclass_Exception.
Qed.

(** A prompt the client accepts leads to exactly one provider request,
    whether the request succeeds or fails: the trace grows by that one call,
    the heap is untouched, and a provider answer is returned as
    [_response_to_dict] converts it. *)
Theorem client_exactly_one_request (W : World) (prompt : string)
    (options : option ImageOptions.t) (st : State) :
  PyStr.truthy (PyStr.strip prompt) = true ->
  PyStr.len prompt <= 4000 ->
  let payload :=
    ImageGenerationClient._construct_payload prompt
      (default (ImageOptions_defaults W) options) in
  snd (ImageGenerationClient.generate_image W prompt options st)
  = {| heap := heap st; trace := trace st ++ [ImagesGenerate payload] |}
  /\ forall response,
       images_generate W (trace st) payload = Return response ->
       fst (ImageGenerationClient.generate_image W prompt options st)
       = Return (ImageGenerationClient._response_to_dict response).
Proof. exact (client_one_request W prompt options st). Qed.

Lemma client_exactly_one_request_witness :
  snd (ImageGenerationClient.generate_image Sample.bad_key "a cat" None Sample.empty_state)
  = {| heap := ∅;
       trace := [ImagesGenerate
                   (ImageGenerationClient._construct_payload "a cat" Sample.defaults)] |}.
Proof.
  apply (client_exactly_one_request Sample.bad_key "a cat" None Sample.empty_state).
  - reflexivity.
  - vm_compute. discriminate.
Defined.

(** ** What the download step touches *)

Lemma same_generation_refl (r : ImageResult.t) : same_generation r r.
Proof. repeat split. Qed.

Lemma same_generation_downloaded (r : ImageResult.t) (b : bytes) :
  same_generation r (ImageResult.set_image_data b r).
Proof. repeat split. Qed.

Lemma same_generation_saved (r : ImageResult.t) (b : bytes) (p : string) :
  same_generation r (ImageResult.set_file_path p (ImageResult.set_image_data b r)).
Proof. repeat split. Qed.

Lemma download_dangling (W : World) (result : nat) (save_path : string) (st : State) :
  heap st !! result = None ->
  exists e, ImageGenerationService.download_and_save_image W result save_path st
            = (Raise e, st).
Proof.
  intros H. unfold ImageGenerationService.download_and_save_image. run.
  rewrite H. now eexists.
Qed.

Lemma download_touches (W : World) (result : nat) (save_path : string)
    (st st' : State) (o : outcome nat) :
  ImageGenerationService.download_and_save_image W result save_path st = (o, st') ->
  (exists evs k,
     trace st' = (trace st ++ evs)%list
     /\ map kind_of evs = firstn k [Download; CreateDirectory; Write])
  /\ (forall l, l <> result -> heap st' !! l = heap st !! l)
  /\ (forall r, heap st !! result = Some r ->
        exists r', heap st' !! result = Some r' /\ same_generation r r').
Proof.
  intros Hrun.
  destruct (heap st !! result) as [r|] eqn:Hheap.
  2:{ destruct (download_dangling W result save_path st Hheap) as [e He].
      rewrite He in Hrun. injection Hrun as <- <-.
      split; [exists [], 0%nat; now rewrite app_nil_r |].
      split; [reflexivity | intros r Hr; congruence]. }
  assert (Hsame : forall l, l <> result ->
                  forall r', <[result := r']> (heap st) !! l = heap st !! l).
  { intros l Hl r'. now apply lookup_insert_ne. }
  destruct (PyStr.truthy_opt (ImageResult.image_url r)) eqn:Hu.
  2:{ rewrite (download_no_url W _ _ _ _ Hheap Hu) in Hrun. injection Hrun as <- <-.
      split; [exists [], 0%nat; now rewrite app_nil_r |].
      split; [reflexivity |]. intros r0 Hr0. injection Hr0 as <-. exists r. split; [exact Hheap |].
      apply same_generation_refl. }
  destruct (requests_get W (trace st) (default "" (ImageResult.image_url r)) 30)
    as [resp | e] eqn:Hget.
  2:{ rewrite (download_get_raises W _ _ _ _ Hheap Hu e Hget) in Hrun.
      injection Hrun as <- <-. cbn [heap trace].
      split; [eexists _, 1%nat; split; reflexivity |].
      split; [reflexivity |]. intros r0 Hr0. injection Hr0 as <-. exists r. split; [exact Hheap |].
      apply same_generation_refl. }
  destruct (error_status (status_code resp)) eqn:Hok.
  { rewrite (download_bad_status W _ _ _ _ Hheap Hu resp Hget Hok) in Hrun.
    injection Hrun as <- <-. cbn [heap trace].
    split; [eexists _, 1%nat; split; reflexivity |].
    split; [reflexivity |]. intros r0 Hr0. injection Hr0 as <-. exists r. split; [exact Hheap |].
    apply same_generation_refl. }
  destruct (os_makedirs W (trace st ++ [HttpGet (default "" (ImageResult.image_url r)) 30])
              (OsPath.dirname save_path)) as [[] | e] eqn:Hmk.
  2:{ rewrite (download_makedirs_raises W _ _ _ _ Hheap Hu resp Hget Hok e Hmk) in Hrun.
      injection Hrun as <- <-. cbn [heap trace].
      split; [eexists _, 2%nat; split; [now rewrite <- app_assoc | reflexivity] |].
      split; [intros l Hl; now apply Hsame |].
      intros r0 Hr0. eexists. split; [apply lookup_insert_eq |].
      replace r0 with r by congruence. apply same_generation_downloaded. }
  destruct (write_file W
              ((trace st ++ [HttpGet (default "" (ImageResult.image_url r)) 30])
               ++ [Makedirs (OsPath.dirname save_path)])
              save_path (content resp)) as [[] | e] eqn:Hwr.
  2:{ rewrite (download_write_raises W _ _ _ _ Hheap Hu resp Hget Hok e Hmk Hwr) in Hrun.
      injection Hrun as <- <-. cbn [heap trace].
      split; [eexists _, 3%nat; split; [now rewrite <- !app_assoc | reflexivity] |].
      split; [intros l Hl; now apply Hsame |].
      intros r0 Hr0. eexists. split; [apply lookup_insert_eq |].
      replace r0 with r by congruence. apply same_generation_downloaded. }
  rewrite (download_succeeds W _ _ _ _ Hheap Hu resp Hget Hok Hmk Hwr) in Hrun.
  injection Hrun as <- <-. cbn [heap trace].
  split; [eexists _, 3%nat; split; [now rewrite <- !app_assoc | reflexivity] |].
  split; [intros l Hl; now apply Hsame |].
  intros r0 Hr0. eexists. split; [apply lookup_insert_eq |].
  replace r0 with r by congruence. apply same_generation_saved.
Qed.

(** Whatever its outcome, [download_and_save_image] makes at most one GET
    request, one [os.makedirs] call and one file write, in this order; it
    leaves every other object of the heap as it was, and of the given
    result it changes nothing but [image_data] and [file_path]. *)
Theorem download_effects (W : World) (result : nat) (save_path : string)
    (st st' : State) (o : outcome nat) :
  ImageGenerationService.download_and_save_image W result save_path st = (o, st') ->
  (exists evs k,
     trace st' = (trace st ++ evs)%list
     /\ map kind_of evs = firstn k [Download; CreateDirectory; Write])
  /\ (forall l, l <> result -> heap st' !! l = heap st !! l)
  /\ (forall r, heap st !! result = Some r ->
        exists r', heap st' !! result = Some r' /\ same_generation r r').
Proof. exact (download_touches W result save_path st st' o). Qed.

Lemma download_effects_witness :
  (exists evs k,
     trace (snd (ImageGenerationService.download_and_save_image Sample.disk_full 0
                   "out/cat.png" Sample.one_result))
     = (trace Sample.one_result ++ evs)%list
     /\ map kind_of evs = firstn k [Download; CreateDirectory; Write])
  /\ (forall l, l <> 0%nat ->
        heap (snd (ImageGenerationService.download_and_save_image Sample.disk_full 0
                     "out/cat.png" Sample.one_result)) !! l
        = heap Sample.one_result !! l)
  /\ (forall r, heap Sample.one_result !! 0%nat = Some r ->
        exists r',
          heap (snd (ImageGenerationService.download_and_save_image Sample.disk_full 0
                       "out/cat.png" Sample.one_result)) !! 0%nat = Some r'
          /\ same_generation r r').
Proof.
  apply (download_effects Sample.disk_full 0 "out/cat.png" Sample.one_result _
           (fst (ImageGenerationService.download_and_save_image Sample.disk_full 0
                   "out/cat.png" Sample.one_result))).
  reflexivity.
Defined.

(** The two [except] clauses catch by class only.  An exception from the
    GET request that is an [OSError] but no [RequestException] is reported
    as [SAVE_ERROR] although nothing has been downloaded or written, and an
    exception that is neither passes to the caller as it is. *)
Theorem download_get_failure_classes (W : World) (result : nat) (save_path : string)
    (st : State) (r : ImageResult.t) (e : exn) :
  heap st !! result = Some r ->
  PyStr.truthy_opt (ImageResult.image_url r) = true ->
  requests_get W (trace st) (default "" (ImageResult.image_url r)) 30 = Raise e ->
  isinstance e RequestException = false ->
  let st1 :=
    {| heap := heap st;
       trace := trace st ++ [HttpGet (default "" (ImageResult.image_url r)) 30] |} in
  (isinstance e OSError = true ->
   exists ie,
     ImageGenerationService.download_and_save_image W result save_path st
     = (Raise (ImageErrorExn ie), st1)
     /\ ImageError.code ie = "SAVE_ERROR")
  /\ (isinstance e OSError = false ->
      ImageGenerationService.download_and_save_image W result save_path st
      = (Raise e, st1)).
Proof.
  intros Hheap Hu Hget Hne. cbv zeta.
  rewrite (download_get_raises W _ _ _ _ Hheap Hu e Hget).
  unfold download_failure. rewrite Hne. split; intros Ho; rewrite Ho.
  - eexists. split; reflexivity.
  - reflexivity.
Qed.

Lemma download_get_failure_classes_witness :
  exists ie,
    ImageGenerationService.download_and_save_image Sample.no_ca_bundle 0 "out/cat.png"
      Sample.one_result
    = (Raise (ImageErrorExn ie),
       {| heap := {[ 0%nat := Sample.generated ]};
          trace := [HttpGet Sample.image_url 30] |})
    /\ ImageError.code ie = "SAVE_ERROR".
Proof.
  apply (download_get_failure_classes Sample.no_ca_bundle 0 "out/cat.png"
           Sample.one_result Sample.generated
           (PyExn OSError "Could not find a suitable TLS CA certificate bundle"));
    reflexivity.
Defined.

(** ** The service's outcomes *)

Lemma validate_prompt_passes_client (prompt : string) :
  ImageGenerationService.validate_prompt prompt = true ->
  PyStr.truthy (PyStr.strip prompt) = true /\ PyStr.len prompt <= 4000.
Proof.
  unfold ImageGenerationService.validate_prompt.
  destruct (PyStr.truthy prompt); cbn [negb]; [| discriminate].
  destruct (PyStr.truthy (PyStr.strip prompt)); cbn [negb]; [| discriminate].
  destruct (4000 <? PyStr.len prompt) eqn:Hl; [discriminate |].
  intros _. split; [reflexivity |]. now apply Z.ltb_ge.
Qed.

(** How the outcome of [generate_image] comes from the one of its body. *)
Lemma generate_image_from_body (W : World) (prompt : string)
    (options : option ImageOptions.t) (auto_save : bool) (save_dir : string)
    (st st' : State) (o : outcome nat) :
  ImageGenerationService.generate_image W prompt options auto_save save_dir st
  = (o, st') ->
  (ImageGenerationService.validate_prompt prompt = false
   /\ o = Raise (PyExn ValueError
                   "Invalid prompt: must be non-empty and under 4000 characters")
   /\ st' = st)
  \/ (ImageGenerationService.validate_prompt prompt = true
      /\ exists o',
           ImageGenerationService.generate_image_body W prompt
             (default (ImageOptions_defaults W) options) auto_save save_dir st
           = (o', st')
           /\ match o' with
              | Return l => o = Return l
              | Raise _ => exists e, o = Raise e /\ isinstance e ImageErrorClass = true
              end).
Proof.
  unfold ImageGenerationService.generate_image.
  destruct (ImageGenerationService.validate_prompt prompt); cbn [negb].
  2:{ intros H. injection H as <- <-. now left. }
  intros H. right. split; [reflexivity |]. unfold try_except in H.
  destruct (ImageGenerationService.generate_image_body W prompt _ auto_save save_dir st)
    as [[l | e] st0].
  - injection H as <- <-. now exists (Return l).
  - cbn [select_handler] in H.
    destruct (isinstance e ImageErrorClass) eqn:He.
    + injection H as <- <-. exists (Raise e). split; [reflexivity |]. now exists e.
    + unfold isinstance at 1 in H. rewrite issubclass_Exception in H.
      injection H as <- <-. exists (Raise e). split; [reflexivity |].
      eexists. split; reflexivity.
Qed.

Lemma fresh_location (h : gmap nat ImageResult.t) (l : nat) :
  is_Some (h !! l) -> l <> fresh (dom h).
Proof.
  intros Hl ->. apply elem_of_dom in Hl. now apply is_fresh in Hl.
Qed.

Lemma generate_image_body_effects (W : World) (prompt : string)
    (options : ImageOptions.t) (auto_save : bool) (save_dir : string)
    (st st' : State) (o : outcome nat) :
  ImageGenerationService.validate_prompt prompt = true ->
  ImageGenerationService.generate_image_body W prompt options auto_save save_dir st
  = (o, st') ->
  (exists evs k,
     (1 <= k <= 4)%nat
     /\ (auto_save = false -> k = 1%nat)
     /\ trace st' = (trace st ++ evs)%list
     /\ map kind_of evs = firstn k [Request; Download; CreateDirectory; Write])
  /\ (forall l, is_Some (heap st !! l) -> heap st' !! l = heap st !! l).
Proof.
  intros Hv Hbody. apply validate_prompt_passes_client in Hv. destruct Hv as [Hs Hlen].
  unfold ImageGenerationService.generate_image_body, mbind, M_bind in Hbody.
  pose proof (client_one_request W prompt (Some options) st Hs Hlen) as [Hst1 _].
  cbv zeta in Hst1. cbn [default from_option id] in Hst1.
  destruct (ImageGenerationClient.generate_image W prompt (Some options) st)
    as [[raw | e] st1]; cbn [snd] in Hst1; subst st1.
  2:{ injection Hbody as <- <-. cbn [heap trace].
      split; [| reflexivity]. eexists _, 1%nat. repeat split; try lia; try discriminate. }
  cbn [heap trace] in Hbody.
  destruct (parser_parse W _ raw prompt) as [parsed | e].
  2:{ injection Hbody as <- <-. cbn [heap trace].
      split; [| reflexivity]. eexists _, 1%nat. repeat split; try lia; try discriminate. }
  unfold alloc, read in Hbody. cbn [heap trace] in Hbody.
  rewrite lookup_insert_eq in Hbody.
  assert (Hold : forall l, is_Some (heap st !! l) ->
                 <[fresh (dom (heap st)) := parsed]> (heap st) !! l = heap st !! l).
  { intros l Hl. apply lookup_insert_ne. apply not_eq_sym. now apply fresh_location. }
  destruct auto_save; cbn [andb] in Hbody.
  2:{ unfold mret, M_ret in Hbody. injection Hbody as <- <-. cbn [heap trace].
      split; [| exact Hold]. eexists _, 1%nat. repeat split; try lia; try discriminate. }
  destruct (PyStr.truthy_opt (ImageResult.image_url parsed)).
  2:{ unfold mret, M_ret in Hbody. injection Hbody as <- <-. cbn [heap trace].
      split; [| exact Hold]. eexists _, 1%nat. repeat split; try lia; try discriminate. }
  unfold ImageGenerationService._generate_safe_filename in Hbody.
  cbn [heap trace] in Hbody.
  apply download_touches in Hbody. cbn [heap trace] in Hbody.
  destruct Hbody as [[evs [k [Htr Hk]]] [Hother _]].
  split.
  - exists (ImagesGenerate (ImageGenerationClient._construct_payload prompt options) :: evs),
           (S (Nat.min k 3)).
    split; [lia |]. split; [discriminate |].
    split; [rewrite Htr, <- app_assoc; reflexivity |].
    cbn [map kind_of firstn]. f_equal. rewrite Hk.
    destruct k as [|[|[|[|k]]]]; reflexivity.
  - intros l Hl. rewrite Hother; [now apply Hold |].
    now apply fresh_location.
Qed.

(** Whatever its outcome, [generate_image] makes its outside calls once each
    and in the order request, GET, [os.makedirs], file write: none for a
    prompt that fails validation, at least the request for one that passes,
    and with [auto_save] off nothing after the request. *)
Theorem generate_image_calls (W : World) (prompt : string)
    (options : option ImageOptions.t) (auto_save : bool) (save_dir : string)
    (st st' : State) (o : outcome nat) :
  ImageGenerationService.generate_image W prompt options auto_save save_dir st
  = (o, st') ->
  exists evs k,
    trace st' = (trace st ++ evs)%list
    /\ map kind_of evs = firstn k [Request; Download; CreateDirectory; Write]
    /\ (k <= 4)%nat
    /\ (ImageGenerationService.validate_prompt prompt = false -> k = 0%nat)
    /\ (ImageGenerationService.validate_prompt prompt = true -> (1 <= k)%nat)
    /\ (auto_save = false -> (k <= 1)%nat).
Proof.
  intros H. apply generate_image_from_body in H.
  destruct H as [[Hv [_ ->]] | [Hv [o' [Hbody _]]]].
  - exists [], 0%nat. rewrite app_nil_r. repeat split; try lia. congruence.
  - apply generate_image_body_effects in Hbody; [| exact Hv].
    destruct Hbody as [[evs [k [Hk [Hauto [Htr Hkinds]]]]] _].
    exists evs, k. repeat split; try assumption; try lia; try congruence.
    intros Ha. rewrite (Hauto Ha). lia.
Qed.

Lemma generate_image_calls_witness :
  exists evs k,
    trace (snd (ImageGenerationService.generate_image Sample.disk_full "a cat" None true
                  "generated_images" Sample.empty_state))
    = (trace Sample.empty_state ++ evs)%list
    /\ map kind_of evs = firstn k [Request; Download; CreateDirectory; Write]
    /\ (k <= 4)%nat
    /\ (ImageGenerationService.validate_prompt "a cat" = false -> k = 0%nat)
    /\ (ImageGenerationService.validate_prompt "a cat" = true -> (1 <= k)%nat)
    /\ (true = false -> (k <= 1)%nat).
Proof.
  apply (generate_image_calls Sample.disk_full "a cat" None true "generated_images"
           Sample.empty_state _
           (fst (ImageGenerationService.generate_image Sample.disk_full "a cat" None true
                   "generated_images" Sample.empty_state))).
  reflexivity.
Defined.

(** An exception of class [ValueError] comes out of [generate_image] only
    for a prompt that fails validation, and then nothing has been called or
    changed: a [ValueError] raised inside the call, by the parser for one,
    is wrapped as [GENERATION_FAILED] and does not come out as such. *)
Theorem generate_image_value_error (W : World) (prompt : string)
    (options : option ImageOptions.t) (auto_save : bool) (save_dir : string)
    (st st' : State) (msg : string) :
  ImageGenerationService.generate_image W prompt options auto_save save_dir st
  = (Raise (PyExn ValueError msg), st') ->
  ImageGenerationService.validate_prompt prompt = false
  /\ msg = "Invalid prompt: must be non-empty and under 4000 characters"
  /\ st' = st.
Proof.
  intros H. apply generate_image_from_body in H.
  destruct H as [[Hv [Ho ->]] | [Hv [o' [_ Ho]]]].
  - injection Ho as ->. now repeat split.
  - destruct o' as [l | e0]; [discriminate |].
    destruct Ho as [e1 [He1 Hi]]. injection He1 as <-. discriminate Hi.
Qed.

Lemma generate_image_value_error_witness :
  ImageGenerationService.validate_prompt "   " = false
  /\ "Invalid prompt: must be non-empty and under 4000 characters"
     = "Invalid prompt: must be non-empty and under 4000 characters"
  /\ Sample.empty_state = Sample.empty_state.
Proof.
  apply (generate_image_value_error Sample.fine "   " None true "generated_images"
           Sample.empty_state Sample.empty_state).
  reflexivity.
Defined.

(** The other way round, on the sample world whose parser raises a
    [ValueError], the caller sees [GENERATION_FAILED]. *)
Lemma parser_value_error_is_wrapped :
  exists ie st',
    ImageGenerationService.generate_image Sample.parser_value_error "a cat" None true
      "generated_images" Sample.empty_state
    = (Raise (ImageErrorExn ie), st')
    /\ ImageError.code ie = "GENERATION_FAILED"
    /\ ImageError.details ie !! "original_error" = Some "no image in response".
Proof. eexists _, _. split; [| split]; vm_compute; reflexivity. Qed.

(** Every prompt the service accepts passes the client's own emptiness and
    length check: on such a prompt the client does not stop at its
    [ValueError] but goes on to the provider request. *)
Theorem service_prompt_passes_client (W : World) (prompt : string)
    (options : option ImageOptions.t) (st : State) :
  ImageGenerationService.validate_prompt prompt = true ->
  (negb (PyStr.truthy prompt) || negb (PyStr.truthy (PyStr.strip prompt)) = false
   /\ (4000 <? PyStr.len prompt) = false)
  /\ trace (snd (ImageGenerationClient.generate_image W prompt options st))
     = (trace st
        ++ [ImagesGenerate
              (ImageGenerationClient._construct_payload prompt
                 (default (ImageOptions_defaults W) options))])%list.
Proof.
  intros Hv. apply validate_prompt_passes_client in Hv. destruct Hv as [Hs Hlen].
  split; [now apply client_valid_prompt |].
  destruct (client_one_request W prompt options st Hs Hlen) as [Hsnd _].
  cbv zeta in Hsnd. now rewrite Hsnd.
Qed.

Lemma service_prompt_passes_client_witness :
  trace (snd (ImageGenerationClient.generate_image Sample.bad_key "a cat" None
                Sample.empty_state))
  = [ImagesGenerate (ImageGenerationClient._construct_payload "a cat" Sample.defaults)].
Proof.
  apply (service_prompt_passes_client Sample.bad_key "a cat" None Sample.empty_state).
  reflexivity.
Defined.

(** ** More on generate and save *)

Lemma generate_image_plain (W : World) (prompt : string)
    (options : option ImageOptions.t) (auto_save : bool) (save_dir : string)
    (st : State) (response : images_response) (parsed : ImageResult.t) :
  let payload :=
    ImageGenerationClient._construct_payload prompt
      (default (ImageOptions_defaults W) options) in
  let t1 := (trace st ++ [ImagesGenerate payload])%list in
  ImageGenerationService.validate_prompt prompt = true ->
  images_generate W (trace st) payload = Return response ->
  parser_parse W t1 (ImageGenerationClient._response_to_dict response) prompt
  = Return parsed ->
  auto_save && PyStr.truthy_opt (ImageResult.image_url parsed) = false ->
  ImageGenerationService.generate_image W prompt options auto_save save_dir st
  = (Return (fresh (dom (heap st))),
     {| heap := <[fresh (dom (heap st)) := parsed]> (heap st); trace := t1 |}).
Proof.
  cbv zeta. intros Hv Hgen Hp Hcond.
  unfold ImageGenerationService.generate_image. rewrite Hv. cbn [negb].
  unfold try_except, ImageGenerationService.generate_image_body, mbind, M_bind.
  apply validate_prompt_passes_client in Hv. destruct Hv as [Hs Hlen].
  pose proof (client_one_request W prompt
                (Some (default (ImageOptions_defaults W) options)) st Hs Hlen)
    as [Hsnd Hfst].
  cbv zeta in Hsnd, Hfst. cbn [default from_option id] in Hsnd, Hfst.
  specialize (Hfst response Hgen).
  destruct (ImageGenerationClient.generate_image W prompt _ st) as [o1 st1].
  cbn [fst snd] in Hsnd, Hfst. subst o1 st1. cbn [heap trace].
  rewrite Hp. unfold alloc, read. cbn [heap trace]. rewrite lookup_insert_eq, Hcond.
  reflexivity.
Qed.

(** [generate_and_save] cannot save a result that has no url (a base64
    answer, for one): the provider is called, the parsed result is put on
    the heap, and the call then raises [DOWNLOAD_ERROR] without any download
    or file-system call. *)
Theorem generate_and_save_needs_url (W : World) (prompt save_path : string)
    (options : option ImageOptions.t) (st : State)
    (response : images_response) (parsed : ImageResult.t) :
  let payload :=
    ImageGenerationClient._construct_payload prompt
      (default (ImageOptions_defaults W) options) in
  let t1 := (trace st ++ [ImagesGenerate payload])%list in
  ImageGenerationService.validate_prompt prompt = true ->
  images_generate W (trace st) payload = Return response ->
  parser_parse W t1 (ImageGenerationClient._response_to_dict response) prompt
  = Return parsed ->
  PyStr.truthy_opt (ImageResult.image_url parsed) = false ->
  ImageGenerationService.generate_and_save W prompt save_path options st
  = (Raise (ImageErrorExn
              (ImageError.Make "DOWNLOAD_ERROR" "No image URL available for download"
                 {[ "result" := ImageResult_str W parsed ]})),
     {| heap := <[fresh (dom (heap st)) := parsed]> (heap st); trace := t1 |}).
Proof.
  cbv zeta. intros Hv Hgen Hp Hu.
  unfold ImageGenerationService.generate_and_save, mbind, M_bind.
  rewrite (generate_image_plain W prompt options _ _ st response parsed Hv Hgen Hp)
    by (rewrite Hu; apply andb_false_r).
  apply download_no_url; [apply lookup_insert_eq | exact Hu].
Qed.

Lemma generate_and_save_needs_url_witness :
  ImageGenerationService.generate_and_save Sample.base64_image "a cat" "out/cat.png"
    None Sample.empty_state
  = (Raise (ImageErrorExn
              (ImageError.Make "DOWNLOAD_ERROR" "No image URL available for download"
                 {[ "result" := "ImageResult(gen-2)" ]})),
     {| heap := {[ 0%nat := ImageResult.Make "gen-2" None (Some "iVBORw0KGgo=")
                              None None None 0 ]};
        trace := [ImagesGenerate
                    (ImageGenerationClient._construct_payload "a cat" Sample.defaults)] |}).
Proof.
  apply (generate_and_save_needs_url Sample.base64_image "a cat" "out/cat.png" None
           Sample.empty_state
           {| resp_created := Some (PInt 1735732800);
              resp_data := [ {| url := Some PNone;
                                b64_json := Some (PStr "iVBORw0KGgo=");
                                revised_prompt := None |} ] |}
           (ImageResult.Make "gen-2" None (Some "iVBORw0KGgo=") None None None 0));
    reflexivity.
Defined.

Lemma generate_image_keeps_parsed_object (W : World) (prompt : string)
    (options : option ImageOptions.t) (auto_save : bool) (save_dir : string)
    (st st' : State) (l : nat) :
  ImageGenerationService.generate_image W prompt options auto_save save_dir st
  = (Return l, st') ->
  exists r, heap st' !! l = Some r.
Proof.
  intros H. apply generate_image_returns in H. cbv zeta in H.
  destruct H as [response [parsed [_ [_ [_ [-> Hst']]]]]].
  destruct (auto_save && PyStr.truthy_opt (ImageResult.image_url parsed)).
  - destruct Hst' as [resp [_ ->]]. cbn [heap]. rewrite lookup_insert_eq. now eexists.
  - subst st'. cbn [heap]. rewrite lookup_insert_eq. now eexists.
Qed.

(** When [generate_and_save] returns, the returned object has a url, its
    [file_path] is the path the caller gave and its [image_data] are the
    bytes of the last download: the calls end with a GET of the url, which
    the endpoint answered with some response, [os.makedirs], and the write
    of that response's body to the path, and that body is what [image_data]
    holds. *)
Theorem generate_and_save_result (W : World) (prompt save_path : string)
    (options : option ImageOptions.t) (st st' : State) (l : nat) :
  ImageGenerationService.generate_and_save W prompt save_path options st
  = (Return l, st') ->
  exists r before last_response,
    let u := default "" (ImageResult.image_url r) in
    heap st' !! l = Some r
    /\ PyStr.truthy_opt (ImageResult.image_url r) = true
    /\ trace st'
       = (before ++ [HttpGet u 30; Makedirs (OsPath.dirname save_path);
                     WriteFile save_path (content last_response)])%list
    /\ requests_get W before u 30 = Return last_response
    /\ ImageResult.image_data r = Some (content last_response)
    /\ ImageResult.file_path r = Some save_path.
Proof.
  unfold ImageGenerationService.generate_and_save, mbind, M_bind.
  destruct (ImageGenerationService.generate_image W prompt options _ _ st)
    as [[l0 | e] st1] eqn:Hg; [| discriminate].
  intros Hd.
  pose proof (generate_image_keeps_parsed_object W _ _ _ _ _ _ _ Hg) as [r1 Hr1].
  pose proof (download_returns W _ _ _ _ r1 _ Hr1 Hd) as Hret. cbv zeta in Hret.
  destruct Hret as [Hu [resp [Hget [_ [_ [_ [-> ->]]]]]]].
  eexists _, (trace st1), resp. cbv zeta. cbn [heap trace].
  split; [apply lookup_insert_eq |].
  cbn [ImageResult.image_url ImageResult.set_file_path ImageResult.set_image_data].
  split; [exact Hu |]. split; [now rewrite <- !app_assoc |].
  split; [exact Hget |]. split; reflexivity.
Qed.

Lemma generate_and_save_result_witness :
  exists r before last_response,
    let u := default "" (ImageResult.image_url r) in
    heap (snd (ImageGenerationService.generate_and_save Sample.fine "a cat" "out/cat.png"
                 None Sample.empty_state)) !! 0%nat = Some r
    /\ PyStr.truthy_opt (ImageResult.image_url r) = true
    /\ trace (snd (ImageGenerationService.generate_and_save Sample.fine "a cat"
                     "out/cat.png" None Sample.empty_state))
       = (before ++ [HttpGet u 30; Makedirs "out";
                     WriteFile "out/cat.png" (content last_response)])%list
    /\ requests_get Sample.fine before u 30 = Return last_response
    /\ ImageResult.image_data r = Some (content last_response)
    /\ ImageResult.file_path r = Some "out/cat.png".
Proof.
  apply (generate_and_save_result Sample.fine "a cat" "out/cat.png" None
           Sample.empty_state _ 0%nat).
  reflexivity.
Defined.

(** ** A path without directory part *)

Lemma dirname_bare (p : string) : OsPath.has_sep p = false -> OsPath.dirname p = "".
Proof.
  intros H. unfold OsPath.dirname.
  assert (Hh : OsPath.head p = "") by (destruct p; [reflexivity | cbn [OsPath.head]; now rewrite H]).
  now rewrite Hh.
Qed.

(** For a [save_path] without [/], the directory handed to [os.makedirs] is
    the empty string; when [os.makedirs] turns it down with an [OSError],
    the call raises [SAVE_ERROR] after the download, and no file is
    written. *)
Theorem download_to_bare_filename (W : World) (result : nat) (save_path : string)
    (st : State) (r : ImageResult.t) (resp : http_response) (e : exn) :
  let u := default "" (ImageResult.image_url r) in
  heap st !! result = Some r ->
  PyStr.truthy_opt (ImageResult.image_url r) = true ->
  OsPath.has_sep save_path = false ->
  requests_get W (trace st) u 30 = Return resp ->
  error_status (status_code resp) = false ->
  os_makedirs W (trace st ++ [HttpGet u 30]) "" = Raise e ->
  isinstance e OSError = true ->
  isinstance e RequestException = false ->
  exists ie,
    ImageGenerationService.download_and_save_image W result save_path st
    = (Raise (ImageErrorExn ie),
       {| heap := <[result := ImageResult.set_image_data (content resp) r]> (heap st);
          trace := trace st ++ [HttpGet u 30; Makedirs ""] |})
    /\ ImageError.code ie = "SAVE_ERROR".
Proof.
  cbv zeta. intros Hheap Hu Hbare Hget Hok Hmk He Hne.
  destruct (download_failure_os W (default "" (ImageResult.image_url r))
              save_path e Hne He) as [ie [Hie [Hc _]]].
  exists ie. split; [| exact Hc].
  pose proof (dirname_bare _ Hbare) as Hd.
  assert (Hmk' : os_makedirs W
                   (trace st ++ [HttpGet (default "" (ImageResult.image_url r)) 30])
                   (OsPath.dirname save_path) = Raise e)
    by (rewrite Hd; exact Hmk).
  rewrite (download_makedirs_raises W _ _ _ _ Hheap Hu resp Hget Hok e Hmk'), Hie.
  rewrite Hd, <- app_assoc. reflexivity.
Qed.

Lemma download_to_bare_filename_witness :
  exists ie,
    ImageGenerationService.download_and_save_image Sample.no_directory 0 "cat.png"
      Sample.one_result
    = (Raise (ImageErrorExn ie),
       {| heap := <[0%nat := ImageResult.set_image_data Sample.png Sample.generated]>
                    {[ 0%nat := Sample.generated ]};
          trace := [HttpGet Sample.image_url 30; Makedirs ""] |})
    /\ ImageError.code ie = "SAVE_ERROR".
Proof.
  apply (download_to_bare_filename Sample.no_directory 0 "cat.png" Sample.one_result
           Sample.generated Sample.ok_response
           (PyExn (Subclass "FileNotFoundError" OSError)
              "[Errno 2] No such file or directory: ''"));
    reflexivity.
Defined.

(** ** The cleaned prompt *)

Section CleanedCharacters.

Lemma all_chars_nil (P : ascii -> bool) : all_chars P "".
Proof. constructor. Qed.

Lemma all_chars_cons (P : ascii -> bool) (c : ascii) (s : string) :
  all_chars P (String c s) <-> P c = true /\ all_chars P s.
Proof.
  unfold all_chars. cbn [list_ascii_of_string]. split.
  - intros H. now inversion H.
  - intros [H1 H2]. now constructor.
Qed.

Lemma sub_class_leaves (cls : ascii -> bool) (s : string) :
  all_chars (fun c => negb (cls c)) (Re.sub_class cls "" s).
Proof.
  induction s as [|c s IH]; [apply all_chars_nil |].
  cbn [Re.sub_class]. destruct (cls c) eqn:Hc.
  - exact IH.
  - apply all_chars_cons. now rewrite Hc.
Qed.

Lemma sub_class_plus_leaves (p P : ascii -> bool) (b : bool) (s : string) :
  P "_"%char = true ->
  all_chars (fun c => p c || P c) s ->
  all_chars P (Re.sub_class_plus_from p "_" b s).
Proof.
  intros Hu. revert b. induction s as [|c s IH]; intros b Hs; [apply all_chars_nil |].
  apply all_chars_cons in Hs. destruct Hs as [Hc Hs].
  cbn [Re.sub_class_plus_from]. destruct (p c) eqn:Hp.
  - destruct b; [now apply IH |].
    change ("_" ++ ?x) with (String "_" x).
    apply all_chars_cons. split; [exact Hu | now apply IH].
  - apply all_chars_cons. split; [exact Hc | now apply IH].
Qed.

Lemma take_leaves (P : ascii -> bool) (k : nat) (s : string) :
  all_chars P s -> all_chars P (PyStr.take k s).
Proof.
  revert s; induction k as [|k IH]; intros [|c s] H; try apply all_chars_nil.
  apply all_chars_cons in H. destruct H as [Hc Hs].
  cbn [PyStr.take]. apply all_chars_cons. split; [exact Hc | now apply IH].
Qed.

Lemma rstrip_leaves (P p : ascii -> bool) (s : string) :
  all_chars P s -> all_chars P (PyStr.rstrip_by p s).
Proof.
  induction s as [|c s IH]; intros H; [apply all_chars_nil |].
  apply all_chars_cons in H. destruct H as [Hc Hs]. specialize (IH Hs).
  cbn [PyStr.rstrip_by]. destruct (PyStr.rstrip_by p s) as [|c' s'].
  - destruct (p c); [apply all_chars_nil |].
    apply all_chars_cons. split; [exact Hc | apply all_chars_nil].
  - apply all_chars_cons. split; [exact Hc | exact IH].
Qed.

Lemma length_take (k : nat) (s : string) : (String.length (PyStr.take k s) <= k)%nat.
Proof.
  revert s; induction k as [|k IH]; intros [|c s]; cbn; try lia.
  specialize (IH s). lia.
Qed.

Lemma length_rstrip (p : ascii -> bool) (s : string) :
  (String.length (PyStr.rstrip_by p s) <= String.length s)%nat.
Proof.
  induction s as [|c s IH]; [reflexivity |].
  cbn [PyStr.rstrip_by]. destruct (PyStr.rstrip_by p s) as [|c' s'].
  - destruct (p c); cbn; lia.
  - cbn in *. lia.
Qed.

Lemma all_chars_impl (P Q : ascii -> bool) (s : string) :
  (forall c, P c = true -> Q c = true) -> all_chars P s -> all_chars Q s.
Proof.
  intros H Hs. unfold all_chars in *. induction Hs as [|c l Hc Hl IH]; constructor.
  - now apply H.
  - exact IH.
Qed.

End CleanedCharacters.

Lemma clean_prompt_chars (prompt : string) :
  all_chars word_char (ImageGenerationService.clean_prompt prompt)
  /\ (String.length (ImageGenerationService.clean_prompt prompt) <= 50)%nat.
Proof.
  unfold ImageGenerationService.clean_prompt. cbv zeta.
  set (stripped := Re.sub_class _ "" _).
  assert (Hw : all_chars word_char
                 (Re.sub_class_plus ImageGenerationService.hyphen_or_space "_" stripped)).
  { apply sub_class_plus_leaves; [reflexivity |].
    apply (all_chars_impl (fun c => negb (ImageGenerationService.not_word_space_hyphen c)));
      [| apply sub_class_leaves].
    intros c H.
    unfold ImageGenerationService.not_word_space_hyphen in H.
    rewrite negb_involutive in H.
    unfold ImageGenerationService.hyphen_or_space, word_char.
    destruct (PyStr.isalnum c), (Ascii.eqb c "_"), (PyStr.isspace c), (Ascii.eqb c "-");
      cbn in *; congruence. }
  unfold PyStr.len.
  destruct (50 <? Z.of_nat (String.length
              (Re.sub_class_plus ImageGenerationService.hyphen_or_space "_" stripped)))
    eqn:Hlen.
  - split.
    + unfold PyStr.rstrip_char. now apply rstrip_leaves, take_leaves.
    + unfold PyStr.rstrip_char.
      pose proof (length_rstrip (Ascii.eqb "_")
                    (PyStr.take 50 (Re.sub_class_plus
                       ImageGenerationService.hyphen_or_space "_" stripped))).
      pose proof (length_take 50 (Re.sub_class_plus
                       ImageGenerationService.hyphen_or_space "_" stripped)).
      lia.
  - apply Z.ltb_ge in Hlen. split; [exact Hw | lia].
Qed.

(** The part of the file name that comes from the prompt has at most 50
    characters, all of them letters, digits or underscores: no path
    separator, dot or whitespace of the prompt reaches the file name. *)
Theorem clean_prompt_is_safe (prompt : string) :
  (String.length (ImageGenerationService.clean_prompt prompt) <= 50)%nat
  /\ forall c,
       In c (list_ascii_of_string (ImageGenerationService.clean_prompt prompt)) ->
       PyStr.isalnum c = true \/ c = "_"%char.
Proof.
  destruct (clean_prompt_chars prompt) as [Hw Hl]. split; [exact Hl |].
  intros c Hc. unfold all_chars in Hw.
  assert (Hwc : word_char c = true).
  { revert Hc. induction Hw as [|a l Ha Hrest IH]; intros Hc; [contradiction |].
    destruct Hc as [<- | Hc]; [exact Ha | now apply IH]. }
  unfold word_char in Hwc. apply orb_true_iff in Hwc.
  destruct Hwc as [H | H]; [now left | right; now apply Ascii.eqb_eq].
Qed.

(** ** The auto-save path *)

Lemma filename_not_absolute (now : datetime) (prompt generation_id : string) :
  PyStr.startswith "/" (ImageGenerationService.safe_filename_at now prompt generation_id)
  = false.
Proof.
  unfold ImageGenerationService.safe_filename_at. cbv zeta.
  destruct (clean_prompt_chars prompt) as [Hw _].
  destruct (ImageGenerationService.clean_prompt prompt) as [|c s]; [reflexivity |].
  apply all_chars_cons in Hw. destruct Hw as [Hc _].
  change (String c s ++ ?x) with (String c (s ++ x)).
  cbn [PyStr.startswith]. destruct (Ascii.eqb_spec "/" c) as [<- | Hne]; [| reflexivity].
  discriminate Hc.
Qed.

(** The path computed for the automatic save is the save directory, a
    separating [/] unless the directory is empty or already ends with one,
    and the file name: whatever the prompt, the file name is relative and
    the path starts with the save directory. *)
Theorem auto_save_path_under_save_dir (save_dir : string) (now : datetime)
    (prompt generation_id : string) :
  let name := ImageGenerationService.safe_filename_at now prompt generation_id in
  OsPath.join save_dir name
  = if negb (PyStr.truthy save_dir) || PyStr.endswith_char "/" save_dir
    then save_dir ++ name
    else save_dir ++ "/" ++ name.
Proof.
  cbv zeta. unfold OsPath.join. now rewrite filename_not_absolute.
Qed.

Lemma append_inv_head (a x y : string) : a ++ x = a ++ y -> x = y.
Proof.
  induction a as [|c a IH]; [trivial |].
  change (String c a ++ ?z) with (String c (a ++ z)).
  intros H. injection H as H. now apply IH.
Qed.

Lemma list_of_append (a b : string) :
  list_ascii_of_string (a ++ b) = (list_ascii_of_string a ++ list_ascii_of_string b)%list.
Proof.
  induction a as [|c a IH]; [reflexivity |].
  change (String c a ++ b) with (String c (a ++ b)). cbn. now rewrite IH.
Qed.

Lemma append_inv_tail (b x y : string) : x ++ b = y ++ b -> x = y.
Proof.
  intros H. apply (f_equal list_ascii_of_string) in H.
  rewrite !list_of_append in H. apply app_inv_tail in H.
  rewrite <- (string_of_list_ascii_of_string x), <- (string_of_list_ascii_of_string y).
  now rewrite H.
Qed.

(** At the same clock reading and for the same prompt, two generation ids
    give the same file name only when they are the same id. *)
Theorem safe_filename_distinguishes_ids (now : datetime)
    (prompt id1 id2 : string) :
  ImageGenerationService.safe_filename_at now prompt id1
  = ImageGenerationService.safe_filename_at now prompt id2 ->
  id1 = id2.
Proof.
  unfold ImageGenerationService.safe_filename_at. cbv zeta. intros H.
  do 4 apply append_inv_head in H. now apply append_inv_tail in H.
Qed.

Lemma safe_filename_distinguishes_ids_witness :
  "gen-1" = "gen-1".
Proof.
  apply (safe_filename_distinguishes_ids Sample.noon "a cat" "gen-1" "gen-1").
  reflexivity.
Defined.

(** ** The fields of the payload *)

(** The payload always carries the model, the prompt, the size, the
    response format and the count of the options, and no key besides these
    five, [quality] and [style]. *)
Theorem payload_base_fields (prompt : string) (options : ImageOptions.t) :
  let payload := ImageGenerationClient._construct_payload prompt options in
  payload !! "model" = Some (PStr (ImageOptions.model options))
  /\ payload !! "prompt" = Some (PStr prompt)
  /\ payload !! "size" = Some (PStr (ImageOptions.size options))
  /\ payload !! "response_format" = Some (PStr (ImageOptions.response_format options))
  /\ payload !! "n" = Some (PInt (ImageOptions.n options))
  /\ forall key, is_Some (payload !! key) -> In key payload_keys.
Proof.
  cbv zeta. unfold ImageGenerationClient._construct_payload, payload_keys.
  destruct (String.eqb (ImageOptions.model options) "dall-e-3"
            && PyStr.truthy_opt (ImageOptions.quality options));
    destruct (String.eqb (ImageOptions.model options) "dall-e-3"
              && PyStr.truthy_opt (ImageOptions.style options));
    cbv zeta;
    (repeat (split; [rewrite ?lookup_insert_ne by discriminate;
                     now rewrite lookup_insert_eq |]));
    intros key [v Hv];
    repeat (rewrite lookup_insert in Hv; case_decide; [subst key; cbn; tauto |]);
    rewrite lookup_empty in Hv; discriminate.
Qed.
